(** * pdb2pqr.io: a shallow embedding of the reading and writing layer

    The development follows [pdb2pqr/io.py] function by function.  Python
    values are modelled as follows.

    - [str] is [string]; the text handled here is ASCII, so [str.upper],
      [str.lower] and [str.split] are given on the ASCII range.
    - [int] is [Z] (or [nat] for counters and lengths).
    - [float] is an IEEE binary64 value, [spec_float]; conversion of text
      to floats (the builtin [float]) is a parameter of the sections
      that need it, formatting is written out.
    - a raised exception is the [Raise] alternative of [result].
    - objects mutated through references (atoms) live in a heap indexed by
      their identity. *)

From Stdlib Require Import ZArith Ascii String Floats.SpecFloat.
From stdpp Require Import strings gmap list pretty.

(** ** Exceptions and results *)

Inductive exn : Type :=
  | IndexError
  | ValueError (msg : string)
  | TypeError
  | AttributeError
  | KeyError (key : string)
  | NameError (name : string)
  | IOError (msg : string)
  | FileNotFoundError (msg : string).

Inductive result (A : Type) : Type :=
  | Ok (a : A)
  | Raise (e : exn).
Arguments Ok {A} a.
Arguments Raise {A} e.

Global Instance result_ret : MRet result := λ A a, Ok a.
Global Instance result_bind : MBind result := λ A B k m,
  match m with
  | Ok a => k a
  | Raise e => Raise e
  end.

Definition is_ok {A : Type} (m : result A) : bool :=
  match m with Ok _ => true | Raise _ => false end.

(** [l[i]] on a Python list: out of range raises [IndexError]. *)
Definition index {A : Type} (l : list A) (i : nat) : result A :=
  match l !! i with
  | Some x => Ok x
  | None => Raise IndexError
  end.

(** ** The string builtins used by the module *)

Module PyStr.

Definition nl : string := String "010"%char EmptyString.
Definition dquote : string := String "034"%char EmptyString.

Definition code (c : ascii) : N := N_of_ascii c.

(** Whitespace for [str.split()] and [str.strip()] within ASCII:
    TAB, LF, VT, FF, CR, FS, GS, RS, US and the space. *)
Definition is_space (c : ascii) : bool :=
  ((9 <=? code c) && (code c <=? 13) || (28 <=? code c) && (code c <=? 32))%N.

Definition upper_char (c : ascii) : ascii :=
  if ((97 <=? code c) && (code c <=? 122))%N
  then ascii_of_N (code c - 32) else c.

Definition lower_char (c : ascii) : ascii :=
  if ((65 <=? code c) && (code c <=? 90))%N
  then ascii_of_N (code c + 32) else c.

Fixpoint map_chars (f : ascii → ascii) (s : string) : string :=
  match s with
  | EmptyString => EmptyString
  | String c s' => String (f c) (map_chars f s')
  end.

Definition upper : string → string := map_chars upper_char.
Definition lower : string → string := map_chars lower_char.

(** [s.split()]: maximal runs of non-whitespace characters. *)
Fixpoint split (s : string) : list string :=
  match s with
  | EmptyString => []
  | String c s' =>
      if is_space c then split s'
      else
        match s' with
        | EmptyString => [String c EmptyString]
        | String c' _ =>
            if is_space c' then String c EmptyString :: split s'
            else
              match split s' with
              | t :: ts => String c t :: ts
              | [] => [String c EmptyString]
              end
        end
  end.

Fixpoint lstrip (s : string) : string :=
  match s with
  | EmptyString => EmptyString
  | String c s' => if is_space c then lstrip s' else s
  end.

Fixpoint rstrip (s : string) : string :=
  match s with
  | EmptyString => EmptyString
  | String c s' =>
      match rstrip s' with
      | EmptyString => if is_space c then EmptyString else String c EmptyString
      | r => String c r
      end
  end.

Definition strip (s : string) : string := rstrip (lstrip s).

(** [s.startswith(p)] *)
Definition startswith (s p : string) : bool := String.prefix p s.

(** [sep.join(l)] *)
Definition join (sep : string) (l : list string) : string := String.concat sep l.

(** [str(n)] for an [int]. *)
Definition str_int (n : Z) : string := pretty n.

(** Padding of the format mini-language: [<] pads on the right, [>] on
    the left, up to the width; longer text is left as it is. *)
Fixpoint spaces (n : nat) : string :=
  match n with
  | O => EmptyString
  | S n' => String " "%char (spaces n')
  end.

Inductive align : Type := AlignLeft | AlignRight.

Definition pad (a : align) (width : nat) (s : string) : string :=
  match a with
  | AlignLeft => s +:+ spaces (width - String.length s)
  | AlignRight => spaces (width - String.length s) +:+ s
  end.

(** [f"{n:>4}"] and the like for an [int]. *)
Definition format_int (a : align) (width : nat) (n : Z) : string :=
  pad a width (str_int n).

(** Number of positions of [s] at which [p] starts. *)
Fixpoint occurrences (p s : string) : nat :=
  match s with
  | EmptyString => if String.prefix p EmptyString then 1 else 0
  | String _ s' => (if String.prefix p s then 1 else 0) + occurrences p s'
  end.

(** [s] begins with [p]. *)
Definition begins (p s : string) : Prop := ∃ r, s = p +:+ r.

End PyStr.

(** ** Numbers: the builtin [int] on text, and float formatting *)

Module PyNum.
Import PyStr.

Definition digit (c : ascii) : option Z :=
  if ((48 <=? code c) && (code c <=? 57))%N
  then Some (Z.of_N (code c) - 48)%Z else None.

(** Digits of a decimal literal; one underscore may sit between two
    digits.  [acc] is the value read so far, [after_digit] says whether
    the previous character was a digit. *)
Fixpoint digits (s : string) (acc : Z) (after_digit : bool) : option Z :=
  match s with
  | EmptyString => if after_digit then Some acc else None
  | String c s' =>
      match digit c with
      | Some d => digits s' (10 * acc + d)%Z true
      | None =>
          if (code c =? 95)%N && after_digit
          then match s' with
               | String c' _ => if digit c' is Some _ then digits s' acc false else None
               | EmptyString => None
               end
          else None
      end
  end.

(** [int(s)] for a [str]: surrounding whitespace, an optional sign,
    decimal digits.  Anything else raises [ValueError]. *)
Definition int (s : string) : result Z :=
  let bad := Raise (ValueError ("invalid literal for int() with base 10: " +:+ s)) in
  match strip s with
  | String "-"%char r => match digits r 0 false with Some n => Ok (- n)%Z | None => bad end
  | String "+"%char r => match digits r 0 false with Some n => Ok n | None => bad end
  | r => match digits r 0 false with Some n => Ok n | None => bad end
  end.

Definition float : Type := spec_float.

Definition is_neg (x : float) : bool :=
  match x with
  | S754_zero s | S754_infinity s | S754_finite s _ _ => s
  | S754_nan => false
  end.

(** Rounding of the non-negative fraction [a / b] to the nearest
    integer, ties to even. *)
Definition round_half_even (a b : Z) : Z :=
  let q := (a / b)%Z in
  match (2 * (a mod b) ?= b)%Z with
  | Lt => q
  | Gt => (q + 1)%Z
  | Eq => if Z.even q then q else (q + 1)%Z
  end.

(** The magnitude [m * 2 ^ e] as a fraction. *)
Definition fraction (m : positive) (e : Z) : Z * Z :=
  if (0 <=? e)%Z then (Z.pos m * 2 ^ e, 1)%Z else (Z.pos m, 2 ^ (- e))%Z.

Fixpoint zeros (n : nat) : string :=
  match n with
  | O => EmptyString
  | S n' => String "0"%char (zeros n')
  end.

Definition zfill (width : nat) (s : string) : string :=
  zeros (width - String.length s) +:+ s.

(** Presentation type [f] with [p] decimals, of [num / den]. *)
Definition fixed_digits (p : nat) (num den : Z) : string :=
  let scale := (10 ^ Z.of_nat p)%Z in
  let r := round_half_even (num * scale) den in
  str_int (r / scale) +:+
  match p with
  | O => EmptyString
  | S _ => "." +:+ zfill p (str_int (r mod scale))
  end.

(** Decimal exponent of [num / den]: the [d] with
    [10 ^ d <= num / den < 10 ^ (d + 1)].  A binary64 magnitude lies
    between [1e-324] and [1e309], which bounds the search. *)
Fixpoint exp10_up (fuel : nat) (num den d : Z) : Z :=
  match fuel with
  | O => d
  | S fuel' =>
      if (den * 10 ^ (d + 1) <=? num)%Z
      then exp10_up fuel' num den (d + 1)%Z else d
  end.

Fixpoint exp10_down (fuel : nat) (num den d : Z) : Z :=
  match fuel with
  | O => d
  | S fuel' =>
      if (den <=? num * 10 ^ (- d))%Z
      then d else exp10_down fuel' num den (d - 1)%Z
  end.

Definition exp10 (num den : Z) : Z :=
  if (den <=? num)%Z then exp10_up 400 num den 0
  else exp10_down 400 num den (-1).

(** Presentation type [E] with [p] decimals, of [num / den] (zero when
    [num] is). *)
Definition sci_digits (p : nat) (num den : Z) : string :=
  let top := (10 ^ Z.of_nat (S p))%Z in
  let d := if (num =? 0)%Z then 0%Z else exp10 num den in
  let shift := (Z.of_nat p - d)%Z in
  let r :=
    if (0 <=? shift)%Z then round_half_even (num * 10 ^ shift) den
    else round_half_even num (den * 10 ^ (- shift)) in
  let '(r, d) := if (top <=? r)%Z then ((r / 10)%Z, (d + 1)%Z) else (r, d) in
  let ds := zfill (S p) (str_int r) in
  String.substring 0 1 ds +:+
  match p with
  | O => EmptyString
  | S _ => "." +:+ String.substring 1 p ds
  end +:+
  "E" +:+ (if (d <? 0)%Z then "-" else "+") +:+ zfill 2 (str_int (Z.abs d)).

Inductive sign_option : Type :=
  | SignMinus   (* the default: a sign on negative numbers only *)
  | SignSpace   (* a leading space on non-negative numbers *)
  | SignPlus.   (* a sign on every number *)

Inductive presentation : Type := Fixed | SciUpper.

(** A format specification [[align][sign][width][.precision][type]]. *)
Record format_spec : Type := FormatSpec {
  fs_align : align;
  fs_sign : sign_option;
  fs_width : nat;
  fs_precision : nat;
  fs_type : presentation
}.

Definition magnitude_text (ty : presentation) (p : nat) (x : float) : string :=
  match x, ty with
  | S754_nan, Fixed => "nan"
  | S754_nan, SciUpper => "NAN"
  | S754_infinity _, Fixed => "inf"
  | S754_infinity _, SciUpper => "INF"
  | S754_zero _, Fixed => fixed_digits p 0 1
  | S754_zero _, SciUpper => sci_digits p 0 1
  | S754_finite _ m e, Fixed => let '(n, d) := fraction m e in fixed_digits p n d
  | S754_finite _ m e, SciUpper => let '(n, d) := fraction m e in sci_digits p n d
  end.

Definition sign_text (so : sign_option) (x : float) : string :=
  if is_neg x then "-"
  else match so with
       | SignMinus => EmptyString
       | SignSpace => " "
       | SignPlus => "+"
       end.

(** [format(x, spec)] for a [float]. *)
Definition format_float (fs : format_spec) (x : float) : string :=
  pad (fs_align fs) (fs_width fs)
      (sign_text (fs_sign fs) x +:+ magnitude_text (fs_type fs) (fs_precision fs) x).

(** The specifications that occur in the module. *)
Definition spec_2f : format_spec := FormatSpec AlignRight SignMinus 0 2 Fixed.
Definition spec_4f : format_spec := FormatSpec AlignRight SignMinus 0 4 Fixed.
Definition spec_11_6f : format_spec := FormatSpec AlignRight SignMinus 11 6 Fixed.
Definition spec_13_5E : format_spec := FormatSpec AlignLeft SignSpace 13 5 SciUpper.

(** A few binary64 values, for the examples. *)
Definition f_zero : float := S754_zero false.
Definition f_one : float := S754_finite false 4503599627370496 (-52).
Definition f_two : float := S754_finite false 4503599627370496 (-51).
Definition f_seven : float := S754_finite false 7881299347898368 (-50).
Definition f_minus_half : float := S754_finite true 4503599627370496 (-53).
(* 0.0003, the nearest binary64 *)
Definition f_3e_4 : float := S754_finite false 5534023222112865 (-64).
(* -1.5e-100 *)
Definition f_tiny : float := S754_finite true 5910300929459172 (-384).

End PyNum.

(** ** Constants imported from [pdb2pqr.config] *)

Record Config : Type := {
  TITLE_STR : string;
  FORCE_FIELDS : list string;
  FILTER_WARNINGS : list string;
  FILTER_WARNINGS_LIMIT : Z
}.

(** ** [DuplicateFilter] *)

Module Throttle.
Import PyStr.

Record LogRecord : Type := {
  levelname : string;
  getMessage : string
}.

(** [self.warn_count], a [Counter]: a key that is absent counts zero. *)
Definition count (warn_count : gmap string nat) (key : string) : nat :=
  default 0 (warn_count !! key).

(** [warn_count.update([key])] *)
Definition update (warn_count : gmap string nat) (key : string) : gmap string nat :=
  <[key := S (count warn_count key)]> warn_count.

(** What one call of [filter] does: the value returned, the messages
    it logs itself, and the counter afterwards. *)
Record outcome : Type := Outcome {
  allowed : bool;
  logged : list string;
  warn_count : gmap string nat
}.

Definition notice (fwarn : string) : string :=
  "Suppressing further " +:+ dquote +:+ fwarn +:+ dquote +:+ " messages".

Fixpoint filter_loop (limit : Z) (fwarns : list string) (message : string)
    (wc : gmap string nat) : outcome :=
  match fwarns with
  | [] => Outcome true [] wc
  | fwarn :: rest =>
      if startswith message fwarn then
        let wc' := update wc fwarn in
        if (limit <? Z.of_nat (count wc' fwarn))%Z then Outcome false [] wc'
        else if (Z.of_nat (count wc' fwarn) =? limit)%Z
             then Outcome false [notice fwarn] wc'
             else Outcome true [] wc'
      else filter_loop limit rest message wc
  end.

Definition filter (cfg : Config) (wc : gmap string nat) (record : LogRecord) : outcome :=
  if String.eqb (levelname record) "WARNING"
  then filter_loop (FILTER_WARNINGS_LIMIT cfg) (FILTER_WARNINGS cfg) (getMessage record) wc
  else Outcome true [] wc.

End Throttle.

(** ** Atoms and residues *)

(** Modelled from the spec: the class [Residue] of [pdb2pqr.structures] is
    not part of this file; the record carries the fields the data model
    lists for it. *)
Record Residue : Type := {
  res_name : string;
  res_seq : Z;
  res_charge : PyNum.float
}.

(** Modelled from the spec: the fields of an [Atom] that the module reads
    or assigns. *)
Record Atom : Type := {
  serial : Z;
  name : string;
  chain_id : string;
  residue : Residue;
  x : PyNum.float;
  y : PyNum.float;
  z : PyNum.float;
  charge : PyNum.float;
  radius : option PyNum.float
}.

Definition with_serial (n : Z) (a : Atom) : Atom :=
  {| serial := n; name := name a; chain_id := chain_id a; residue := residue a;
     x := x a; y := y a; z := z a; charge := charge a; radius := radius a |}.

(** The methods of [Atom] and [Residue] that the module calls. *)
Record AtomMethods : Type := {
  get_pdb_string : Atom → string;
  get_cif_string : Atom → string;
  get_pqr_string : Atom → bool → string;
  residue_str : Residue → string
}.

(** Atoms are objects: a list of atoms is a list of references, and
    assigning to [atom.serial] is seen through every reference to that
    atom. *)
Definition ref : Type := nat.
Definition heap : Type := ref → Atom.

Definition set_serial (h : heap) (r : ref) (n : Z) : heap :=
  λ r', if decide (r' = r) then with_serial n (h r') else h r'.

(** ** [print_biomolecule_atoms] *)

Module Formatter.
Import PyStr.

(** The variables of the loop: [text], [currentchain_id] and the atoms. *)
Record loop_state : Type := LoopState {
  text : list string;
  currentchain_id : option string;
  atoms : heap
}.

Definition render (am : AtomMethods) (chainflag pdbfile ciffile : bool) (a : Atom) : string :=
  if pdbfile then get_pdb_string am a +:+ nl
  else if ciffile then get_cif_string am a +:+ nl
  else get_pqr_string am a chainflag +:+ nl.

(** One pass of the body of [for iatom, atom in enumerate(atomlist)]. *)
Definition loop_body (am : AtomMethods) (chainflag pdbfile ciffile : bool)
    (iatom : nat) (atom : ref) (st : loop_state) : loop_state :=
  let chain := chain_id (atoms st atom) in
  let '(text1, current1) :=
    match currentchain_id st with
    | None => (text st, Some chain)
    | Some current =>
        if decide (chain ≠ current)
        then (text st ++ ["TER" +:+ nl], Some chain)
        else (text st, Some current)
    end in
  let atoms1 := set_serial (atoms st) atom (Z.of_nat iatom + 1) in
  LoopState (text1 ++ [render am chainflag pdbfile ciffile (atoms1 atom)]) current1 atoms1.

Fixpoint loop (am : AtomMethods) (chainflag pdbfile ciffile : bool)
    (iatom : nat) (atomlist : list ref) (st : loop_state) : loop_state :=
  match atomlist with
  | [] => st
  | atom :: rest =>
      loop am chainflag pdbfile ciffile (S iatom) rest
           (loop_body am chainflag pdbfile ciffile iatom atom st)
  end.

(** The list of lines returned, and the atoms as the call leaves them. *)
Definition print_biomolecule_atoms (am : AtomMethods) (h : heap) (atomlist : list ref)
    (chainflag pdbfile ciffile : bool) : result (list string * heap) :=
  if pdbfile && ciffile
  then Raise (ValueError "Cannot be both a pdb and cif file. Pick one.")
  else
    let st := loop am chainflag pdbfile ciffile 0 atomlist (LoopState [] None h) in
    let text := if negb ciffile then text st ++ ["TER" +:+ nl +:+ "END"] else text st in
    Ok (text, atoms st).

(** The atom body as the specification words it: the line of every atom, in
    order, with one chain-terminator line between two consecutive atoms
    whose chain identifiers differ.  A row is a chain identifier and the
    line of the atom. *)
Fixpoint with_terminators (rows : list (string * string)) : list string :=
  match rows with
  | [] => []
  | (chain, line) :: rest =>
      line ::
      match rest with
      | [] => []
      | (chain', _) :: _ => if decide (chain' ≠ chain) then ["TER" +:+ nl] else []
      end ++ with_terminators rest
  end.

(** The rows of an atom list: the atom at position [j] (counted from
    [first]) is rendered with serial [j + 1]. *)
Fixpoint rows (am : AtomMethods) (chainflag pdbfile ciffile : bool) (h : heap)
    (first : nat) (atomlist : list ref) : list (string * string) :=
  match atomlist with
  | [] => []
  | atom :: rest =>
      (chain_id (h atom),
       render am chainflag pdbfile ciffile (with_serial (Z.of_nat first + 1) (h atom)))
      :: rows am chainflag pdbfile ciffile h (S first) rest
  end.

(** The terminator the loop puts before the next atom, given the chain it
    has seen last. *)
Definition lead (current : option string) (h : heap) (atomlist : list ref) : list string :=
  match current, atomlist with
  | Some c, atom :: _ => if decide (chain_id (h atom) ≠ c) then ["TER" +:+ nl] else []
  | _, _ => []
  end.

End Formatter.

(** ** [get_old_header] and [print_pqr_header] *)

Module Header.
Import PyStr.

(** A block object of [pdb2pqr.pdb]: the name of its class and its
    [str()]. *)
Record PdbRecord : Type := {
  record_class : string;
  record_str : string
}.

Definition header_types : list string :=
  ["HEADER"; "TITLE"; "COMPND"; "SOURCE"; "KEYWDS"; "EXPDTA";
   "AUTHOR"; "REVDAT"; "JRNL"; "REMARK"; "SPRSDE"; "NUMMDL"].

Fixpoint get_old_header (pdblist : list PdbRecord) : string :=
  match pdblist with
  | [] => EmptyString
  | pdb_obj :: rest =>
      if bool_decide (record_class pdb_obj ∈ header_types)
      then record_str pdb_obj +:+ nl +:+ get_old_header rest
      else EmptyString
  end.

(** [f"{ph:.2f}"]: formatting [None] with a precision raises. *)
Definition format_ph (ph : option PyNum.float) : result string :=
  match ph with
  | Some v => Ok (PyNum.format_float PyNum.spec_2f v)
  | None => Raise TypeError
  end.

Definition banner : string := "REMARK   1 PQR file generated by PDB2PQR".

Definition print_pqr_header (cfg : Config) (am : AtomMethods)
    (pdblist : list PdbRecord) (atomlist : list Atom) (reslist : list Residue)
    (charge : PyNum.float) (force_field ph_calc_method : option string)
    (ph : option PyNum.float) (ffout : option string)
    (include_old_header : bool) : result string :=
  let force_field :=
    match force_field with
    | None => "User force field"
    | Some ff => upper ff
    end in
  let head := join nl
    [ banner;
      "REMARK   1 " +:+ TITLE_STR cfg;
      "REMARK   1";
      "REMARK   1 Forcefield Used: " +:+ force_field;
      EmptyString ] in
  let head :=
    match ffout with
    | Some ffout => head +:+ ("REMARK   1 Naming Scheme Used: " +:+ ffout +:+ nl)
    | None => head
    end in
  let head := head +:+ (head +:+ ("REMARK   1" +:+ nl)) in
  head ←
    match ph_calc_method with
    | Some ph_calc_method =>
        ph_text ← format_ph ph;
        Ok (head +:+ join nl
              [ "REMARK   1 pKas calculated by " +:+ ph_calc_method +:+ " and " +:+
                "assigned using pH " +:+ ph_text +:+ nl +:+
                "REMARK   1";
                EmptyString ])
    | None => Ok head
    end;
  let head :=
    if bool_decide (length atomlist ≠ 0) then
      let head := head +:+ join nl
        [ "REMARK   5 WARNING: PDB2PQR was unable to assign charges";
          "REMARK   5 to the following atoms (omitted below):";
          EmptyString ] in
      let head := foldl (λ head atom,
        (head +:+ ("REMARK   5    " +:+ str_int (serial atom) +:+ " " +:+ name atom +:+ " in "))
        +:+ (res_name (residue atom) +:+ " " +:+ str_int (res_seq (residue atom)) +:+ nl))
        head atomlist in
      head +:+ join nl
        [ "REMARK   5 This is usually due to the fact that this residue " +:+
          "is not";
          "REMARK   5 an amino acid or nucleic acid; or, there are no " +:+
          "parameters";
          "REMARK   5 available for the specific protonation state of " +:+
          "this";
          "REMARK   5 residue in the selected forcefield.";
          "REMARK   5";
          EmptyString ]
    else head in
  let head :=
    if bool_decide (length reslist ≠ 0) then
      let head := head +:+ join nl
        [ "REMARK   5 WARNING: Non-integral net charges were found in";
          "REMARK   5 the following residues:";
          EmptyString ] in
      let head := foldl (λ head residue,
        (head +:+ ("REMARK   5    " +:+ residue_str am residue +:+ " - "))
        +:+ ("Residue Charge: " +:+
             PyNum.format_float PyNum.spec_4f (res_charge residue) +:+ nl))
        head reslist in
      head +:+ ("REMARK   5" +:+ nl)
    else head in
  let head := head +:+ join nl
    [ "REMARK   6 Total charge on this biomolecule: " +:+
      PyNum.format_float PyNum.spec_4f charge +:+ " e" +:+ nl +:+
      "REMARK   6";
      EmptyString ] in
  let head :=
    if include_old_header then
      (head +:+ join nl
         [ "REMARK   7 Original PDB header follows"; "REMARK   7"; EmptyString ])
      +:+ get_old_header pdblist
    else head in
  Ok head.

(** The first part of the header as the specification words it: the banner block
    with the forcefield, then the naming scheme when there is one. *)
Definition opening (cfg : Config) (force_field ffout : option string) : string :=
  join nl
    [ banner;
      "REMARK   1 " +:+ TITLE_STR cfg;
      "REMARK   1";
      "REMARK   1 Forcefield Used: " +:+
        match force_field with None => "User force field" | Some ff => upper ff end;
      EmptyString ] +:+
  match ffout with
  | Some ffout => "REMARK   1 Naming Scheme Used: " +:+ ffout +:+ nl
  | None => EmptyString
  end.

End Header.

(** ** Files: [test_for_file] and [get_pdb_file] *)

Module Files.
Import PyStr.

Record Response : Type := {
  status_code : Z;
  resp_text : string
}.

(** What the module sees of the file system, of [pathlib], of [sys] and
    of the network.  A path is written as its text. *)
Record World : Type := {
  is_file : string → bool;                 (* [Path.is_file] *)
  stem : string → string;                  (* [Path.stem] *)
  joinpath : string → list string → string; (* [Path.joinpath] *)
  path_div : string → string → string;     (* [Path / str] *)
  cwd : string;                            (* [Path.cwd()] *)
  sys_path : list string;                  (* [sys.path] *)
  requests_get : string → Response         (* [requests.get] *)
}.

(** A loop whose body may return: the value of the first pass that
    returns, if any. *)
Fixpoint for_first {A B : Type} (l : list A) (body : A → option B) : option B :=
  match l with
  | [] => None
  | a :: rest =>
      match body a with
      | Some b => Some b
      | None => for_first rest body
      end
  end.

(** [test_for_file] returns the empty [str] or a path. *)
Inductive found : Type :=
  | EmptyStr
  | FoundPath (p : string).

Definition test_names (name : string) : list string :=
  [name; upper name; lower name].

Definition test_suffixes (type_ : string) : list string :=
  [EmptyString; "." +:+ upper type_; "." +:+ lower type_].

Definition test_dirs (w : World) : list string :=
  (λ p, joinpath w p ["pdb2pqr"; "dat"]) <$> (sys_path w ++ [cwd w]).

(** [name] and [type_] are optional: either may be [None]. *)
Definition test_for_file (cfg : Config) (w : World)
    (name type_ : option string) : result found :=
  match name with
  | None => Ok EmptyStr
  | Some name =>
      let names := test_names name in
      type_ ← match type_ with
               | Some t => Ok t
               | None => Raise AttributeError
               end;
      let suffixes := test_suffixes type_ in
      let dirs := test_dirs w in
      let name := if bool_decide (lower name ∈ FORCE_FIELDS cfg) then upper name else name in
      match
        for_first dirs (λ test_dir,
          for_first names (λ test_name,
            for_first suffixes (λ test_suffix,
              let test_path := path_div w test_dir (test_name +:+ test_suffix) in
              if is_file w test_path then Some test_path else None)))
      with
      | Some test_path => Ok (FoundPath test_path)
      | None =>
          Raise (FileNotFoundError ("Unable to find " +:+ type_ +:+ " file for " +:+ name))
      end
  end.

(** The names bound in the module's namespace: its imports, [_LOGGER],
    and the class and functions it defines. *)
Definition module_names : list string :=
  [ "logging"; "io"; "Counter"; "Path"; "sys_path"; "gemmi"; "psize";
    "inputgen"; "cif"; "pdb"; "defns"; "Atom"; "FORCE_FIELDS"; "TITLE_STR";
    "FILTER_WARNINGS_LIMIT"; "FILTER_WARNINGS"; "AA_DEF_PATH"; "NA_DEF_PATH";
    "PATCH_DEF_PATH"; "_LOGGER"; "DuplicateFilter"; "print_biomolecule_atoms";
    "get_old_header"; "print_pqr_header"; "print_pqr_header_cif"; "dump_apbs";
    "test_for_file"; "test_names_file"; "test_dat_file"; "test_xml_file";
    "get_pdb_file"; "get_molecule"; "get_definitions"; "setup_logger";
    "read_pqr"; "read_qcd"; "read_dx"; "write_cube"; "print_pqr"; "print_pdb";
    "generate_atom_site_columns"; "print_cif" ].

(** What a call does besides returning. *)
Inductive event : Type :=
  | Debug (msg : string)
  | OpenFile (path : string)
  | HttpGet (url : string).

Inductive file_object : Type :=
  | TextFile (path : string)
  | StringIO (text : string).

(** [get_pdb_file] in a module namespace [names]: the global [requests]
    is looked up when the call reaches it. *)
Definition get_pdb_file_in (names : list string) (w : World) (name : string)
    : list event * result file_object :=
  let path := name in
  if is_file w path then ([OpenFile path], Ok (TextFile path))
  else
    let url_path := "https://files.rcsb.org/download/" +:+ stem w path +:+ ".pdb" in
    let log := [Debug ("Attempting to fetch PDB from " +:+ url_path)] in
    if bool_decide ("requests" ∈ names) then
      let resp := requests_get w url_path in
      if bool_decide (status_code resp ≠ 200%Z)
      then (log ++ [HttpGet url_path],
            Raise (IOError ("Got code " +:+ str_int (status_code resp) +:+
                            " while retrieving " +:+ url_path)))
      else (log ++ [HttpGet url_path], Ok (StringIO (resp_text resp)))
    else (log, Raise (NameError "requests")).

Definition get_pdb_file : World → string → list event * result file_object :=
  get_pdb_file_in module_names.

Definition is_fetch (e : event) : bool :=
  match e with HttpGet _ => true | _ => false end.

(** [s] ends with [t]. *)
Definition ends_with (s t : string) : Prop := ∃ r, s = r +:+ t.

End Files.

(** ** [generate_atom_site_columns] *)

Module Remap.
Import PyStr.

Definition col_idx : list (string * nat) :=
  [ ("group_PDB", 0); ("id", 1); ("type_symbol", 2);
    ("label_atom_id", 19); ("label_alt_id", 4); ("label_comp_id", 5);
    ("label_asym_id", 6); ("label_entity_id", 7); ("label_seq_id", 8);
    ("pdbx_PDB_ins_code", 9);
    ("Cartn_x", 10); ("Cartn_y", 11); ("Cartn_z", 12);
    ("occupancy", 13); ("B_iso_or_equiv", 14); ("pdbx_formal_charge", 15);
    ("auth_seq_id", 16); ("auth_comp_id", 17); ("auth_asym_id", 18);
    ("auth_atom_id", 19);
    ("pdbx_PDB_model_num", 20) ].

(** [d[key]] on a dict literal. *)
Fixpoint dict_get (d : list (string * nat)) (key : string) : result nat :=
  match d with
  | [] => Raise (KeyError key)
  | (k, v) :: rest => if String.eqb k key then Ok v else dict_get rest key
  end.

(** [line[col_idx[key]]] *)
Definition cell (line : list string) (key : string) : result string :=
  i ← dict_get col_idx key; index line i.

(** The twenty-one lists the function fills. *)
Record columns : Type := Columns {
  group_PDB : list string;
  id_ : list string;
  type_symbol : list string;
  label_atom_id : list string;
  label_alt_id : list string;
  label_comp_id : list string;
  label_asym_id : list string;
  label_entity_id : list string;
  label_seq_id : list string;
  pdbx_PDB_ins_code : list string;
  Cartn_x : list string;
  Cartn_y : list string;
  Cartn_z : list string;
  occupancy : list string;
  B_iso_or_equiv : list string;
  pdbx_formal_charge : list string;
  auth_seq_id : list string;
  auth_comp_id : list string;
  auth_asym_id : list string;
  auth_atom_id : list string;
  pdbx_PDB_model_num : list string
}.

Definition no_columns : columns :=
  Columns [] [] [] [] [] [] [] [] [] [] [] [] [] [] [] [] [] [] [] [] [].

(** The appends of one pass of the loop, for an accepted line. *)
Definition append_cells (line : list string) (c : columns) : result columns :=
  v0 ← cell line "group_PDB";
  v1 ← cell line "id";
  v2 ← cell line "type_symbol";
  v3 ← cell line "label_atom_id";
  v4 ← cell line "label_alt_id";
  v5 ← cell line "label_comp_id";
  v6 ← cell line "label_asym_id";
  v7 ← cell line "label_entity_id";
  v8 ← cell line "label_seq_id";
  v9 ← cell line "pdbx_PDB_ins_code";
  v10 ← cell line "Cartn_x";
  v11 ← cell line "Cartn_y";
  v12 ← cell line "Cartn_z";
  v13 ← cell line "occupancy";
  v14 ← cell line "B_iso_or_equiv";
  v15 ← cell line "pdbx_formal_charge";
  v16 ← cell line "auth_seq_id";
  v17 ← cell line "auth_comp_id";
  v18 ← cell line "auth_asym_id";
  v19 ← cell line "auth_atom_id";
  v20 ← cell line "pdbx_PDB_model_num";
  Ok (Columns
        (group_PDB c ++ [v0]) (id_ c ++ [v1]) (type_symbol c ++ [v2])
        (label_atom_id c ++ [v3]) (label_alt_id c ++ [v4]) (label_comp_id c ++ [v5])
        (label_asym_id c ++ [v6]) (label_entity_id c ++ [v7]) (label_seq_id c ++ [v8])
        (pdbx_PDB_ins_code c ++ [v9])
        (Cartn_x c ++ [v10]) (Cartn_y c ++ [v11]) (Cartn_z c ++ [v12])
        (occupancy c ++ [v13]) (B_iso_or_equiv c ++ [v14]) (pdbx_formal_charge c ++ [v15])
        (auth_seq_id c ++ [v16]) (auth_comp_id c ++ [v17]) (auth_asym_id c ++ [v18])
        (auth_atom_id c ++ [v19])
        (pdbx_PDB_model_num c ++ [v20])).

(** [len(line) in [23, 25]] *)
Definition accepted (line : list string) : bool :=
  bool_decide (length line ∈ [23; 25]).

Fixpoint fill (pdb_lines : list string) (c : columns) : result columns :=
  match pdb_lines with
  | [] => Ok c
  | line :: rest =>
      let line := split line in
      if negb (accepted line) then fill rest c
      else c' ← append_cells line c; fill rest c'
  end.

(** The tuple returned. *)
Definition as_tuple (c : columns) : list (list string) :=
  [ group_PDB c; id_ c; type_symbol c; label_atom_id c; label_alt_id c; label_comp_id c;
    label_asym_id c; label_entity_id c; label_seq_id c; pdbx_PDB_ins_code c;
    Cartn_x c; Cartn_y c; Cartn_z c; occupancy c; B_iso_or_equiv c; pdbx_formal_charge c;
    auth_seq_id c; auth_comp_id c; auth_asym_id c; auth_atom_id c; pdbx_PDB_model_num c ].

Definition generate_atom_site_columns (pdb_lines : list string) : result (list (list string)) :=
  c ← fill pdb_lines no_columns; Ok (as_tuple c).

(** The token position each entry of the tuple is read from. *)
Definition positions : list nat :=
  [0; 1; 2; 19; 4; 5; 6; 7; 8; 9; 10; 11; 12; 13; 14; 15; 16; 17; 18; 19; 20].

(** The tokenized lines that are accepted, in order. *)
Definition accepted_lines (pdb_lines : list string) : list (list string) :=
  filter (λ line, accepted line = true) (split <$> pdb_lines).

(** Token [i] of every line of [lines]. *)
Definition column_at (lines : list (list string)) (i : nat) : list string :=
  (λ line, nth i line EmptyString) <$> lines.

End Remap.

(** ** [read_dx] and [write_cube] *)

Module Grid.
Import PyStr.

(** The dictionary built by [read_dx], by key. *)
Record dx_dict : Type := DxDict {
  grid_spacing : list (list PyNum.float);
  values : list PyNum.float;
  number_of_grid_points : option (Z * Z * Z);
  lower_left_corner : option (list PyNum.float)
}.

Definition empty_dict : dx_dict := DxDict [] [] None None.

(** [[w.strip() for w in line.split()]] *)
Definition words_of (line : string) : list string := strip <$> split line.

(** A line without a single token. *)
Definition blank (line : string) : bool :=
  forallb is_space (list_ascii_of_string line).

Section Reader.
(** The builtin [float] applied to a [str]. *)
Variable float_of : string → result PyNum.float.

(** [for word in words: values.append(float(word))] *)
Fixpoint append_values (words : list string) (vals : list PyNum.float)
    : result (list PyNum.float) :=
  match words with
  | [] => Ok vals
  | word :: rest => v ← float_of word; append_values rest (vals ++ [v])
  end.

(** [[float(words[1]), float(words[2]), float(words[3])]] *)
Definition three_floats (words : list string) : result (list PyNum.float) :=
  w1 ← index words 1; f1 ← float_of w1;
  w2 ← index words 2; f2 ← float_of w2;
  w3 ← index words 3; f3 ← float_of w3;
  Ok [f1; f2; f3].

(** One pass of [for line in dx_file]. *)
Definition read_line (d : dx_dict) (line : string) : result dx_dict :=
  let words := words_of line in
  w0 ← index words 0;
  if bool_decide (w0 ∈ ["#"; "attribute"; "component"]) then Ok d
  else if String.eqb w0 "object" then
    w1 ← index words 1;
    if String.eqb w1 "1" then
      w5 ← index words 5; n5 ← PyNum.int w5;
      w6 ← index words 6; n6 ← PyNum.int w6;
      w7 ← index words 7; n7 ← PyNum.int w7;
      Ok (DxDict (grid_spacing d) (values d) (Some (n5, n6, n7)) (lower_left_corner d))
    else Ok d
  else if String.eqb w0 "origin" then
    corner ← three_floats words;
    Ok (DxDict (grid_spacing d) (values d) (number_of_grid_points d) (Some corner))
  else if String.eqb w0 "delta" then
    spacing ← three_floats words;
    Ok (DxDict (grid_spacing d ++ [spacing]) (values d)
               (number_of_grid_points d) (lower_left_corner d))
  else
    vals ← append_values words (values d);
    Ok (DxDict (grid_spacing d) vals (number_of_grid_points d) (lower_left_corner d)).

Fixpoint read_lines (dx_file : list string) (d : dx_dict) : result dx_dict :=
  match dx_file with
  | [] => Ok d
  | line :: rest => d' ← read_line d line; read_lines rest d'
  end.

(** [dx_file] is the list of lines the file object yields. *)
Definition read_dx (dx_file : list string) : result dx_dict :=
  read_lines dx_file empty_dict.

(** The first tokens that [read_dx] gives a meaning to. *)
Definition keywords : list string :=
  ["#"; "attribute"; "component"; "object"; "origin"; "delta"].

(** A line of scalar tokens: it has a token, the first one is no
    keyword, and [float] accepts every token. *)
Definition value_line (line : string) : Prop :=
  ∃ w ws, words_of line = w :: ws ∧ (w ∉ keywords) ∧
          Forall (λ word, is_ok (float_of word) = true) (w :: ws).

(** A line [key a b c ...] with three tokens that [float] accepts. *)
Definition vector_line (key line : string) : Prop :=
  ∃ a b c rest, words_of line = key :: a :: b :: c :: rest ∧
                is_ok (float_of a) = true ∧ is_ok (float_of b) = true ∧
                is_ok (float_of c) = true.

End Reader.

(** Writing to [cube_file]: the texts written so far, and how the
    computation ended. *)
Record cube_io (A : Type) : Type := CubeIO {
  written : list string;
  returned : result A
}.
Arguments CubeIO {A} written returned.
Arguments written {A} c.
Arguments returned {A} c.

Global Instance cube_io_ret : MRet cube_io := λ A a, CubeIO [] (Ok a).
Global Instance cube_io_bind : MBind cube_io := λ A B k m,
  match returned m with
  | Ok a => CubeIO (written m ++ written (k a)) (returned (k a))
  | Raise e => CubeIO (written m) (Raise e)
  end.

(** [cube_file.write(s)] *)
Definition write (s : string) : cube_io unit := CubeIO [s] (Ok tt).

Definition lift {A : Type} (r : result A) : cube_io A := CubeIO [] r.

Fixpoint for_each {A : Type} (l : list A) (body : A → cube_io unit) : cube_io unit :=
  match l with
  | [] => mret tt
  | a :: rest => body a;; for_each rest body
  end.

(** [range(start, stop, step)] for a positive step; there are at most
    [stop] values. *)
Fixpoint range_from (fuel start stop step : nat) : list nat :=
  match fuel with
  | O => []
  | S fuel' =>
      if start <? stop then start :: range_from fuel' (start + step) stop step else []
  end.

Definition range (start stop step : nat) : list nat :=
  range_from stop start stop step.

(** [v[i]] where [v] may be [None]. *)
Definition subscript {A : Type} (v : option (list A)) (i : nat) : result A :=
  match v with
  | None => Raise TypeError
  | Some l => index l i
  end.

Definition point_count (num_points : option (Z * Z * Z)) (i : nat) : result Z :=
  match num_points with
  | None => Raise TypeError
  | Some (n0, n1, n2) => index [n0; n1; n2] i
  end.

Definition f11 : PyNum.float → string := PyNum.format_float PyNum.spec_11_6f.
Definition e13 : PyNum.float → string := PyNum.format_float PyNum.spec_13_5E.

(** The line written for axis [i]. *)
Definition write_axis (data_dict : dx_dict) (i : nat) : cube_io unit :=
  let num_points := number_of_grid_points data_dict in
  let spacings := grid_spacing data_dict in
  n ← lift (point_count num_points i);
  s0 ← lift (si ← index spacings i; index si 0);
  s1 ← lift (si ← index spacings i; index si 1);
  s2 ← lift (si ← index spacings i; index si 2);
  write (format_int AlignRight 4 (- n) +:+ " " +:+
         f11 s0 +:+ " " +:+ f11 s1 +:+ " " +:+ f11 s2 +:+ nl).

(** The line written for an atom. *)
Definition atom_line (atom : Atom) : string :=
  format_int AlignRight 4 (serial atom) +:+ " " +:+ f11 (charge atom) +:+ " " +:+
  f11 (x atom) +:+ " " +:+ f11 (y atom) +:+ " " +:+ f11 (z atom) +:+ nl.

(** Everything [write_cube] writes before the values. *)
Definition write_head (data_dict : dx_dict) (atom_list : list Atom) (comment : string)
    : cube_io unit :=
  write (comment +:+ nl);;
  write ("OUTER LOOP: X, MIDDLE LOOP: Y, INNER LOOP: Z" +:+ nl);;
  let num_atoms := length atom_list in
  let origin := lower_left_corner data_dict in
  o0 ← lift (subscript origin 0);
  o1 ← lift (subscript origin 1);
  o2 ← lift (subscript origin 2);
  write (format_int AlignRight 4 (Z.of_nat num_atoms) +:+ " " +:+
         f11 o0 +:+ " " +:+ f11 o1 +:+ " " +:+ f11 o2 +:+ nl);;
  for_each [0; 1; 2] (write_axis data_dict);;
  for_each atom_list (λ atom, write (atom_line atom)).

(** The loop over the values, [stride] being 6. *)
Definition write_values (values : list PyNum.float) : cube_io unit :=
  let stride := 6 in
  for_each (range 0 (length values) 6) (λ i,
    if i + stride <? length values then
      let imax := i + 6 in
      let words := e13 <$> take (imax - i) (drop i values) in
      write (join " " words +:+ nl)
    else
      let words := e13 <$> drop i values in
      write (join " " words)).

Definition write_cube (data_dict : dx_dict) (atom_list : list Atom) (comment : string)
    : cube_io unit :=
  write_head data_dict atom_list comment;;
  write_values (values data_dict).

(** The values as the specification words them: cut into chunks of [n], every
    chunk a line, the last one without a line break. *)
Fixpoint chunks_fuel {A : Type} (fuel n : nat) (l : list A) : list (list A) :=
  match fuel with
  | O => []
  | S fuel' =>
      match l with
      | [] => []
      | _ => take n l :: chunks_fuel fuel' n (drop n l)
      end
  end.

Definition chunks {A : Type} (n : nat) (l : list A) : list (list A) :=
  chunks_fuel (length l) n l.

Fixpoint value_lines (cs : list (list PyNum.float)) : list string :=
  match cs with
  | [] => []
  | c :: rest =>
      match rest with
      | [] => [join " " (e13 <$> c)]
      | _ => (join " " (e13 <$> c) +:+ nl) :: value_lines rest
      end
  end.

End Grid.

(** ** The filter over a run of records *)

Module Stream.

(** The logging framework calls [filter] once per record, on the same
    filter object: the counters of one call are those the next call
    starts from. *)
Fixpoint filter_run (cfg : Config) (wc : gmap string nat)
    (records : list Throttle.LogRecord) : list Throttle.outcome :=
  match records with
  | [] => []
  | record :: rest =>
      let out := Throttle.filter cfg wc record in
      out :: filter_run cfg (Throttle.warn_count out) rest
  end.

(** A warning whose first watched prefix is [p], [before] being the
    watched prefixes listed ahead of [p]. *)
Definition warns (before : list string) (p : string) (record : Throttle.LogRecord) : Prop :=
  Throttle.levelname record = "WARNING" ∧
  Forall (λ q, PyStr.startswith (Throttle.getMessage record) q = false) before ∧
  PyStr.startswith (Throttle.getMessage record) p = true.

End Stream.

(** ** Counting chain breaks *)

Module Chains.

(** The number of neighbours in [chains] that differ. *)
Fixpoint chain_changes (chains : list string) : nat :=
  match chains with
  | [] => 0
  | c :: rest =>
      match rest with
      | [] => 0
      | c' :: _ => (if decide (c' ≠ c) then 1 else 0) + chain_changes rest
      end
  end.

End Chains.

(** ** [print_pqr_header_cif] *)

Module HeaderCif.
Import PyStr.

(** The declaration of the atom loop that closes the header. *)
Definition atom_site_loop : string :=
  join nl
    [ "#"; "loop_";
      "_atom_site.group_PDB"; "_atom_site.id"; "_atom_site.label_atom_id";
      "_atom_site.label_comp_id"; "_atom_site.label_seq_id";
      "_atom_site.Cartn_x"; "_atom_site.Cartn_y"; "_atom_site.Cartn_z";
      "_atom_site.pqr_partial_charge"; "_atom_site.pqr_radius";
      EmptyString ].

(** The header, and the warnings the call logs. *)
Definition print_pqr_header_cif (cfg : Config) (am : AtomMethods)
    (atomlist : list Atom) (reslist : list Residue)
    (charge : PyNum.float) (force_field ph_calc_method : option string)
    (ph : option PyNum.float) (ffout : option string)
    (include_old_header : bool) : list string * result string :=
  let force_field :=
    match force_field with
    | None => "User force field"
    | Some ff => upper ff
    end in
  let header := join nl
    [ "#"; "loop_";
      "_pdbx_database_remark.id"; "_pdbx_database_remark.text";
      "1"; ";";
      "PQR file generated by PDB2PQR";
      TITLE_STR cfg;
      EmptyString;
      "Forcefield used: " +:+ force_field +:+ nl +:+ EmptyString ] in
  let header :=
    match ffout with
    | Some ffout => header +:+ ("Naming scheme used: " +:+ ffout +:+ nl)
    | None => header
    end in
  let header := header +:+ nl in
  match
    match ph_calc_method with
    | Some ph_calc_method =>
        let header := header +:+ ("pKas calculated by " +:+ ph_calc_method +:+ " and ") in
        ph_text ← Header.format_ph ph;
        Ok (header +:+ ("assigned using pH " +:+ ph_text +:+ nl))
    | None => Ok header
    end
  with
  | Raise e => ([], Raise e)
  | Ok header =>
      let header := header +:+ join nl [";"; "2"; ";"; EmptyString] in
      let header :=
        if bool_decide (0 < length atomlist) then
          let header := header +:+ join nl
            [ "Warning: PDB2PQR was unable to assign charges";
              "to the following atoms (omitted below):";
              EmptyString ] in
          let header := foldl (λ header atom,
            (header +:+ ("    " +:+ str_int (serial atom) +:+ " " +:+ name atom +:+ " in "))
            +:+ (res_name (residue atom) +:+ " " +:+ str_int (res_seq (residue atom)) +:+ nl))
            header atomlist in
          header +:+ join nl
            [ "This is usually due to the fact that this residue is not";
              "an amino acid or nucleic acid; or, there are no parameters";
              "available for the specific protonation state of this";
              "residue in the selected forcefield.";
              EmptyString ]
        else header in
      let header :=
        if bool_decide (0 < length reslist) then
          let header := header +:+ join nl
            [ "Warning: Non-integral net charges were found in";
              "the following residues:";
              EmptyString ] in
          foldl (λ header residue,
            (header +:+ ("    " +:+ residue_str am residue +:+ " - "))
            +:+ ("Residue Charge: " +:+
                 PyNum.format_float PyNum.spec_4f (res_charge residue) +:+ nl))
            header reslist
        else header in
      let header := header +:+ join nl
        [ ";"; "3"; ";";
          "Total charge on this biomolecule: " +:+
          PyNum.format_float PyNum.spec_4f charge +:+ " e" +:+ ";";
          EmptyString ] in
      let warnings :=
        if include_old_header
        then ["Including original CIF header not implemented."] else [] in
      (warnings, Ok (header +:+ atom_site_loop))
  end.

(** The text the header opens with. *)
Definition remark_loop : string :=
  join nl
    [ "#"; "loop_";
      "_pdbx_database_remark.id"; "_pdbx_database_remark.text";
      "1"; ";";
      "PQR file generated by PDB2PQR" ].

End HeaderCif.

(** ** The paths [test_for_file] tries *)

Module Lookup.
Import Files.

(** Every path tried for [name] and [type_], in the order of the three
    nested loops: directories outermost, then names, then suffixes. *)
Definition candidates (w : World) (name type_ : string) : list string :=
  test_dirs w ≫= λ test_dir,
    test_names name ≫= λ test_name,
      (λ test_suffix, path_div w test_dir (test_name +:+ test_suffix))
        <$> test_suffixes type_.

End Lookup.

(** ** [read_pqr], [read_qcd] and [get_molecule] *)

Module Readers.

Section AtomFactory.
(** [Atom.from_pqr_line] and [Atom.from_qcd_line]: an atom, or [None] for
    a line that is not a data line. *)
Variable from_pqr_line : string → option Atom.
Variable from_qcd_line : string → Z → option Atom.

Fixpoint read_pqr_loop (pqr_file : list string) (atoms : list Atom) : list Atom :=
  match pqr_file with
  | [] => atoms
  | line :: rest =>
      match from_pqr_line line with
      | Some atom => read_pqr_loop rest (atoms ++ [atom])
      | None => read_pqr_loop rest atoms
      end
  end.

Definition read_pqr (pqr_file : list string) : list Atom :=
  read_pqr_loop pqr_file [].

Fixpoint read_qcd_loop (qcd_file : list string) (atoms : list Atom) (atom_serial : Z)
    : list Atom :=
  match qcd_file with
  | [] => atoms
  | line :: rest =>
      match from_qcd_line line atom_serial with
      | Some atom => read_qcd_loop rest (atoms ++ [atom]) (atom_serial + 1)
      | None => read_qcd_loop rest atoms atom_serial
      end
  end.

Definition read_qcd (qcd_file : list string) : list Atom :=
  read_qcd_loop qcd_file [] 1.

End AtomFactory.

(** The readers of [pdb2pqr.cif] and [pdb2pqr.pdb]: the records read and
    the errors met; and [Path.suffix]. *)
Record Parsers : Type := {
  read_cif : Files.file_object → list Header.PdbRecord * list string;
  read_pdb : Files.file_object → list Header.PdbRecord * list string;
  suffix : string → string
}.

(** What [get_molecule] does besides returning. *)
Inductive molecule_event : Type :=
  | FileEvent (e : Files.event)
  | LogWarning (msg : string)
  | LogError (errlist : list string).

(** How [get_molecule] can fail: with whatever [get_pdb_file] raised, or
    with its own [RuntimeError]. *)
Inductive molecule_error : Type :=
  | FromGetPdbFile (e : exn)
  | RuntimeError (msg : string).

Definition get_molecule (w : Files.World) (ps : Parsers) (input_path : string)
    : list molecule_event * (molecule_error + list Header.PdbRecord * bool) :=
  let path := input_path in
  let '(events, opened) := Files.get_pdb_file w input_path in
  let events := FileEvent <$> events in
  match opened with
  | Raise e => (events, inl (FromGetPdbFile e))
  | Ok input_file =>
      let is_cif := String.eqb (PyStr.lower (suffix ps path)) ".cif" in
      let '(pdblist, errlist) :=
        if is_cif then read_cif ps input_file else read_pdb ps input_file in
      if bool_decide (length pdblist = 0) && bool_decide (length errlist = 0)
      then (events, inl (RuntimeError ("Unable to find file " +:+ path +:+ "!")))
      else
        let logged :=
          if bool_decide (length errlist ≠ 0) then
            [ LogWarning
                (if is_cif
                 then "Warning: " +:+ path +:+ " is a non-standard CIF file." +:+ PyStr.nl
                 else "Warning: " +:+ path +:+ " is a non-standard PDB file." +:+ PyStr.nl);
              LogError errlist ]
          else [] in
        (events ++ logged, inr (pdblist, is_cif))
  end.

End Readers.

(** ** [print_pqr] and [print_pdb] *)

Module Output.
Import PyStr.

Fixpoint take_chars (n : nat) (s : string) : string :=
  match n, s with
  | S n', String c s' => String c (take_chars n' s')
  | _, _ => EmptyString
  end.

Fixpoint drop_chars (n : nat) (s : string) : string :=
  match n, s with
  | S n', String _ s' => drop_chars n' s'
  | _, _ => s
  end.

(** [s[i:j]] and [s[i:]] for bounds that are not negative: what lies
    beyond the end of [s] is left out. *)
Definition slice (s : string) (i j : nat) : string := take_chars (j - i) (drop_chars i s).
Definition slice_from (s : string) (i : nat) : string := drop_chars i s.

(** [line[0:4] == "ATOM" or line[0:6] == "HETATM"] *)
Definition is_record (line : string) : bool :=
  String.eqb (slice line 0 4) "ATOM" || String.eqb (slice line 0 6) "HETATM".

(** The line with a space put in at columns 6, 16, 38 and 46. *)
Definition spaced (line : string) : string :=
  slice line 0 6 +:+ " " +:+ slice line 6 16 +:+ " " +:+ slice line 16 38 +:+ " " +:+
  slice line 38 46 +:+ " " +:+ slice_from line 46.

(** [col if col != "_" else "."] *)
Definition dot (col : string) : string :=
  if bool_decide (col ≠ "_") then col else ".".

(** The line retokenized for CIF. *)
Definition dotted (line : string) : string :=
  join " " (dot <$> split line) +:+ nl.

(** What a call logs and what it writes to [outfile], the file being
    taken to open. *)
Record printed : Type := Printed {
  logged : list string;
  written : list string
}.

(** The two warnings about lines that are left out. *)
Definition ignoring (header_lines missing_lines : list string) : list string :=
  (if bool_decide (header_lines ≠ [])
   then ["Ignoring " +:+ str_int (Z.of_nat (length header_lines)) +:+ " header lines in output."]
   else []) ++
  (if bool_decide (missing_lines ≠ [])
   then ["Ignoring " +:+ str_int (Z.of_nat (length missing_lines)) +:+ " missing lines in output."]
   else []).

(** The writes of [for line in pqr_lines] in [print_pqr]. *)
Fixpoint pqr_loop (whitespace is_cif : bool) (pqr_lines : list string) : list string :=
  match pqr_lines with
  | [] => []
  | line :: rest =>
      (if whitespace then
         if is_record line then [spaced line] else []
       else
         let line := if is_cif then dotted line else line in
         if negb (String.eqb (slice line 0 3) "TER") || negb is_cif then [line] else [])
      ++ pqr_loop whitespace is_cif rest
  end.

(** [whitespace] is [args.whitespace]. *)
Definition print_pqr (whitespace : bool) (pqr_lines header_lines missing_lines : list string)
    (is_cif : bool) : printed :=
  Printed (ignoring header_lines missing_lines)
          (pqr_loop whitespace is_cif pqr_lines ++ (if is_cif then ["#" +:+ nl] else [])).

(** The writes of [for line in pdb_lines] in [print_pdb]. *)
Fixpoint pdb_loop (is_cif : bool) (pdb_lines : list string) : list string :=
  match pdb_lines with
  | [] => []
  | line :: rest =>
      (let line := if is_cif then dotted line else line in
       if negb (String.eqb (slice line 0 3) "TER") || negb is_cif then [line] else [])
      ++ pdb_loop is_cif rest
  end.

Definition print_pdb (pdb_lines header_lines missing_lines : list string)
    (is_cif : bool) : printed :=
  Printed (ignoring header_lines missing_lines) (pdb_loop is_cif pdb_lines).

(** A token: not empty, and free of whitespace. *)
Definition token (t : string) : Prop :=
  t ≠ EmptyString ∧ forallb (λ c, negb (is_space c)) (list_ascii_of_string t) = true.

End Output.

(** ** Kinds of grid lines, and grids ready for writing *)

Module GridLines.
Import Grid.

(** A line [read_dx] passes over: its first token is [#], [attribute] or
    [component], or it is an [object] line whose second token is not
    [1]. *)
Definition passed_over (line : string) : Prop :=
  ∃ w0 rest, words_of line = w0 :: rest ∧
    (w0 ∈ ["#"; "attribute"; "component"] ∨
     w0 = "object" ∧ ∃ w1 rest', rest = w1 :: rest' ∧ w1 ≠ "1").

(** A line read as scalars: it has a token, and the first one is no
    keyword. *)
Definition scalar_line (line : string) : Prop :=
  ∃ w ws, words_of line = w :: ws ∧ (w ∉ keywords).

(** [origin], dimensions and spacings as [write_cube] reads them: three
    coordinates, the numbers of points, three vectors of three. *)
Definition writable (d : dx_dict) : Prop :=
  (∃ o0 o1 o2 more, lower_left_corner d = Some (o0 :: o1 :: o2 :: more)) ∧
  number_of_grid_points d ≠ None ∧
  ∀ i, i < 3 → ∃ s0 s1 s2 more, grid_spacing d !! i = Some (s0 :: s1 :: s2 :: more).

End GridLines.

(** ** Sample values used by the examples *)

(** Values for the constants of [pdb2pqr.config]. *)
Definition sample_cfg : Config :=
  {| TITLE_STR := "PDB2PQR: biomolecular structure conversion software.";
     FORCE_FIELDS := ["amber"; "charmm"; "parse"; "tyl06"; "peoepb"; "swanson"];
     FILTER_WARNINGS := ["Skipped atom during water optimization";
                         "The best donorH was not picked";
                         "Multiple occupancies found"];
     FILTER_WARNINGS_LIMIT := 3 |}.

(** A warning that starts with the third watched prefix. *)
Definition occupancy_warning : Throttle.LogRecord :=
  {| Throttle.levelname := "WARNING";
     Throttle.getMessage := "Multiple occupancies found: CA in ALA A 5." |}.

(** A stand-in for the line renderers of [Atom], enough to tell the lines
    of different atoms and serials apart. *)
Definition sample_line (tag : string) (a : Atom) : string :=
  tag +:+ " " +:+ PyStr.str_int (serial a) +:+ " " +:+ name a +:+ " " +:+ chain_id a.

Definition sample_methods : AtomMethods :=
  {| get_pdb_string := sample_line "ATOM";
     get_cif_string := sample_line "ATOM";
     get_pqr_string := λ a chainflag,
       if chainflag then sample_line "ATOM" a
       else "ATOM " +:+ PyStr.str_int (serial a) +:+ " " +:+ name a;
     residue_str := λ r, res_name r +:+ " " +:+ PyStr.str_int (res_seq r) |}.

Definition sample_residue : Residue :=
  {| res_name := "ALA"; res_seq := 5; res_charge := PyNum.f_3e_4 |}.

(** Three atoms on chains A, A and B, carrying serials 907, 908, 909. *)
Definition sample_heap : heap := λ r,
  {| serial := 907 + Z.of_nat r;
     name := match r with 0 => "N" | 1 => "CA" | _ => "C" end;
     chain_id := if r <? 2 then "A" else "B";
     residue := sample_residue;
     x := PyNum.f_one; y := PyNum.f_two; z := PyNum.f_seven;
     charge := PyNum.f_minus_half; radius := Some PyNum.f_one |}.

(** A world with no file at all, and a server that answers 404. *)
Definition sample_world : Files.World :=
  {| Files.is_file := λ _, false;
     Files.stem := λ p, p;
     Files.joinpath := λ p parts, foldl (λ acc part, acc +:+ "/" +:+ part) p parts;
     Files.path_div := λ p q, p +:+ "/" +:+ q;
     Files.cwd := "/work";
     Files.sys_path := ["/usr/lib/python3"];
     Files.requests_get := λ _, {| Files.status_code := 404; Files.resp_text := "Not Found" |} |}.

(** An atom line of 23 tokens, and the same line with one token more. *)
Definition sample_site_line : string :=
  "ATOM 1 N N . MET A 1 1 ? 27.340 24.430 2.614 1.00 9.67 ? 1 MET A N 1 p q".

Definition sample_long_line : string := sample_site_line +:+ " r".

(** The builtin [float] on integer literals, which is all the examples
    need: the binary64 value of the integer. *)
Definition sample_float_of (s : string) : result PyNum.float :=
  n ← PyNum.int s; Ok (binary_normalize 53 1024 n 0 false).

(** A minimal grid file: 2 x 2 x 2 points, eight values. *)
Definition sample_dx : list string :=
  [ "object 1 class gridpositions counts 2 2 2" +:+ PyStr.nl;
    "origin 0 0 0" +:+ PyStr.nl;
    "delta 1 0 0" +:+ PyStr.nl;
    "delta 0 1 0" +:+ PyStr.nl;
    "delta 0 0 1" +:+ PyStr.nl;
    "1 2 3" +:+ PyStr.nl;
    "4 5 6" +:+ PyStr.nl;
    "7 8" +:+ PyStr.nl ].

(** The grid read from it. *)
Definition sample_grid : Grid.dx_dict :=
  let f := λ n, binary_normalize 53 1024 n 0 false in
  Grid.DxDict [[f 1; f 0; f 0]; [f 0; f 1; f 0]; [f 0; f 0; f 1]]%Z
              (f <$> [1; 2; 3; 4; 5; 6; 7; 8]%Z)
              (Some (2, 2, 2)%Z)
              (Some [f 0; f 0; f 0]%Z).

(** Two header records and an atom record. *)
Definition sample_records : list Header.PdbRecord :=
  [ {| Header.record_class := "HEADER"; Header.record_str := "HEADER    HYDROLASE" |};
    {| Header.record_class := "TITLE"; Header.record_str := "TITLE     LYSOZYME" |} ].

Definition sample_atom_record : Header.PdbRecord :=
  {| Header.record_class := "ATOM"; Header.record_str := "ATOM      1  N   MET A   1" |}.

(** A world whose only file is the AMBER parameter file below the working
    directory. *)
Definition sample_world_dat : Files.World :=
  {| Files.is_file := λ p, String.eqb p "/work/pdb2pqr/dat/AMBER.DAT";
     Files.stem := Files.stem sample_world;
     Files.joinpath := Files.joinpath sample_world;
     Files.path_div := Files.path_div sample_world;
     Files.cwd := Files.cwd sample_world;
     Files.sys_path := Files.sys_path sample_world;
     Files.requests_get := Files.requests_get sample_world |}.

(** A stand-in for [Atom.from_qcd_line]: a line starting with [ATOM]
    gives an atom with the serial it is passed, any other line gives
    [None]. *)
Definition sample_from_qcd_line (line : string) (atom_serial : Z) : option Atom :=
  if PyStr.startswith line "ATOM"
  then Some (with_serial atom_serial (sample_heap 0)) else None.

(** Readers that find header records in a CIF file, and nothing but an
    error in any other file; the suffix is the last four characters. *)
Definition sample_parsers : Readers.Parsers :=
  {| Readers.read_cif := λ _, (sample_records, []);
     Readers.read_pdb := λ _, ([], ["bad record"]);
     Readers.suffix := λ p, String.substring (String.length p - 4) 4 p |}.

(** A world in which every path is a file. *)
Definition sample_world_full : Files.World :=
  {| Files.is_file := λ _, true;
     Files.stem := Files.stem sample_world;
     Files.joinpath := Files.joinpath sample_world;
     Files.path_div := Files.path_div sample_world;
     Files.cwd := Files.cwd sample_world;
     Files.sys_path := Files.sys_path sample_world;
     Files.requests_get := Files.requests_get sample_world |}.

(* ================================================================== *)
(** * Properties *)

Example split_ex :
  PyStr.split ("  ab  c" +:+ PyStr.nl) = ["ab"; "c"].
Proof. reflexivity. Qed.

Example split_blank_ex : PyStr.split ("   " +:+ PyStr.nl) = [].
Proof. reflexivity. Qed.

Example upper_ex : PyStr.upper "amber_99" = "AMBER_99".
Proof. reflexivity. Qed.

Example format_int_ex : PyStr.format_int PyStr.AlignRight 4 (-2) = "  -2".
Proof. vm_compute. reflexivity. Qed.

Example fmt_ex1 : PyNum.format_float PyNum.spec_13_5E PyNum.f_one = " 1.00000E+00 ".
Proof. vm_compute. reflexivity. Qed.
Example fmt_ex2 : PyNum.format_float PyNum.spec_4f PyNum.f_3e_4 = "0.0003".
Proof. vm_compute. reflexivity. Qed.
Example fmt_ex3 : PyNum.format_float PyNum.spec_11_6f PyNum.f_minus_half = "  -0.500000".
Proof. vm_compute. reflexivity. Qed.
Example fmt_ex4 : PyNum.format_float PyNum.spec_13_5E PyNum.f_tiny = "-1.50000E-100".
Proof. vm_compute. reflexivity. Qed.
Example fmt_ex5 : PyNum.format_float PyNum.spec_13_5E PyNum.f_3e_4 = " 3.00000E-04 ".
Proof. vm_compute. reflexivity. Qed.
Example int_ex : PyNum.int "2" = Ok 2%Z /\ PyNum.int "-1_0" = Ok (-10)%Z /\ is_ok (PyNum.int "2.0") = false.
Proof. vm_compute. auto. Qed.

(** ** The message throttle *)

Section ThrottleFacts.
Import Throttle.
Variable cfg : Config.
Abbreviation L := (FILTER_WARNINGS_LIMIT cfg).

Lemma count_update_same (wc : gmap string nat) k :
  count (update wc k) k = S (count wc k).
Proof. unfold count, update. by rewrite lookup_insert_eq. Qed.

Lemma count_update_other (wc : gmap string nat) k k' :
  k ≠ k' → count (update wc k) k' = count wc k'.
Proof. intros Hne. unfold count, update. by rewrite lookup_insert_ne. Qed.

Lemma filter_loop_skip limit before rest message (wc : gmap string nat) :
  Forall (λ p, PyStr.startswith message p = false) before →
  filter_loop limit (before ++ rest) message wc = filter_loop limit rest message wc.
Proof.
  induction 1 as [|p before Hp _ IH]; [done|].
  simpl. by rewrite Hp.
Qed.

Lemma filter_no_match (wc : gmap string nat) record :
  Forall (λ p, PyStr.startswith (getMessage record) p = false) (FILTER_WARNINGS cfg) →
  filter cfg wc record = Outcome true [] wc.
Proof.
  intros Hno. unfold filter. destruct (String.eqb _ _); [|done].
  rewrite <-(app_nil_r (FILTER_WARNINGS cfg)).
  by rewrite filter_loop_skip.
Qed.

Lemma filter_not_warning (wc : gmap string nat) record :
  levelname record ≠ "WARNING" →
  filter cfg wc record = Outcome true [] wc.
Proof.
  intros Hlvl. unfold filter.
  destruct (String.eqb_spec (levelname record) "WARNING"); [done|done].
Qed.

(** C2 (as amended).  A record that is not at warning level, or whose
    message starts with no watched prefix, passes and leaves the counters
    alone.  For a warning whose message starts with a watched prefix, the
    first such prefix in the order of [FILTER_WARNINGS] has its counter
    incremented by one and no other counter changes; the message is
    allowed when the new count is below the limit, and it is suppressed
    when the new count equals the limit (one notice being logged for the
    prefix) or exceeds it (nothing being logged). *)
Theorem filter_throttle (wc : gmap string nat) (record : LogRecord) :
  (levelname record ≠ "WARNING" ∨
   Forall (λ p, PyStr.startswith (getMessage record) p = false) (FILTER_WARNINGS cfg) →
   filter cfg wc record = Outcome true [] wc) ∧
  (∀ before fwarn after,
     levelname record = "WARNING" →
     FILTER_WARNINGS cfg = before ++ fwarn :: after →
     Forall (λ p, PyStr.startswith (getMessage record) p = false) before →
     PyStr.startswith (getMessage record) fwarn = true →
     let out := filter cfg wc record in
     let n := Z.of_nat (S (count wc fwarn)) in
     count (warn_count out) fwarn = S (count wc fwarn) ∧
     (∀ k, k ≠ fwarn → count (warn_count out) k = count wc k) ∧
     ((n < L)%Z → allowed out = true ∧ logged out = []) ∧
     ((n = L)%Z → allowed out = false ∧ logged out = [notice fwarn]) ∧
     ((L < n)%Z → allowed out = false ∧ logged out = [])).
Proof.
  split.
  - intros [Hlvl|Hno]; [by apply filter_not_warning | by apply filter_no_match].
  - intros before fwarn after Hlvl Hsplit Hbefore Hstarts out n.
    assert (Hout : out =
      let wc' := update wc fwarn in
      if (L <? Z.of_nat (count wc' fwarn))%Z then Outcome false [] wc'
      else if (Z.of_nat (count wc' fwarn) =? L)%Z
           then Outcome false [notice fwarn] wc' else Outcome true [] wc').
    { subst out. unfold filter. rewrite Hlvl, Hsplit. simpl String.eqb. cbv iota.
      rewrite filter_loop_skip by done. simpl. by rewrite Hstarts. }
    cbv zeta in Hout. rewrite count_update_same in Hout. fold n in Hout.
    assert (Hwc : warn_count out = update wc fwarn).
    { rewrite Hout. by repeat case_match. }
    rewrite Hwc. split; [apply count_update_same|].
    split; [intros k Hk; by apply count_update_other|].
    rewrite Hout.
    destruct (Z.ltb_spec L n); destruct (Z.eqb_spec n L); simpl;
      repeat split; intros; first [done | lia].
Qed.

End ThrottleFacts.

(** At the limit the throttle logs its notice and suppresses the message. *)
Lemma filter_throttle_witness :
  let wc : gmap string nat := {["Multiple occupancies found" := 2]} in
  let out := Throttle.filter sample_cfg wc occupancy_warning in
  Throttle.allowed out = false ∧
  Throttle.logged out = [Throttle.notice "Multiple occupancies found"].
Proof.
  intros wc out.
  destruct (filter_throttle sample_cfg wc occupancy_warning) as [_ H].
  apply (H ["Skipped atom during water optimization"; "The best donorH was not picked"]
           "Multiple occupancies found" []).
  - reflexivity.
  - reflexivity.
  - repeat constructor.
  - reflexivity.
  - vm_compute. reflexivity.
Defined.

(** C2 as stated fails: a warning that brings the count of its watched
    prefix to exactly the limit is not allowed, [filter] returns [False]
    for it. *)
Lemma filter_at_limit_not_allowed :
  let wc : gmap string nat := {["Multiple occupancies found" := 2]} in
  let out := Throttle.filter sample_cfg wc occupancy_warning in
  Throttle.levelname occupancy_warning = "WARNING" ∧
  "Multiple occupancies found" ∈ FILTER_WARNINGS sample_cfg ∧
  PyStr.startswith (Throttle.getMessage occupancy_warning) "Multiple occupancies found" = true ∧
  Z.of_nat (Throttle.count (Throttle.warn_count out) "Multiple occupancies found")
    = FILTER_WARNINGS_LIMIT sample_cfg ∧
  Throttle.allowed out ≠ true.
Proof.
  intros wc out. repeat split.
  - set_solver.
  - vm_compute. discriminate.
Qed.

(** ** The structure record formatter *)

Section FormatterFacts.
Import Formatter.
Variable am : AtomMethods.
Variables chainflag pdbfile ciffile : bool.

Abbreviation run_loop := (loop am chainflag pdbfile ciffile).
Abbreviation body := (loop_body am chainflag pdbfile ciffile).
Abbreviation rows_of := (rows am chainflag pdbfile ciffile).

Lemma with_serial_twice n m a : with_serial n (with_serial m a) = with_serial n a.
Proof. reflexivity. Qed.

Lemma with_serial_same a : with_serial (serial a) a = a.
Proof. by destruct a. Qed.

Lemma set_serial_at h r n : set_serial h r n r = with_serial n (h r).
Proof. unfold set_serial. by rewrite decide_True. Qed.

Lemma set_serial_other h r n r' : r' ≠ r → set_serial h r n r' = h r'.
Proof. intros Hne. unfold set_serial. by rewrite decide_False. Qed.

Lemma set_serial_chain h r n r' : chain_id (set_serial h r n r') = chain_id (h r').
Proof. unfold set_serial. by case_decide. Qed.

Lemma set_serial_renumber h r n m r' :
  with_serial m (set_serial h r n r') = with_serial m (h r').
Proof. unfold set_serial. by case_decide. Qed.

Lemma rows_set_serial h r n first atomlist :
  rows_of (set_serial h r n) first atomlist = rows_of h first atomlist.
Proof.
  revert first. induction atomlist as [|a rest IH]; intros first; [done|].
  simpl. by rewrite set_serial_chain, set_serial_renumber, IH.
Qed.

Lemma body_atoms iatom atom st :
  atoms (body iatom atom st) = set_serial (atoms st) atom (Z.of_nat iatom + 1).
Proof. unfold loop_body. by repeat case_match. Qed.

Lemma loop_text atomlist : ∀ iatom st,
  text (run_loop iatom atomlist st) =
  text st ++ lead (currentchain_id st) (atoms st) atomlist
          ++ with_terminators (rows_of (atoms st) iatom atomlist).
Proof.
  induction atomlist as [|atom rest IH]; intros iatom st.
  - simpl. destruct (currentchain_id st); simpl; by rewrite app_nil_r.
  - simpl loop. rewrite IH, body_atoms, rows_set_serial.
    assert (Hcur : currentchain_id (body iatom atom st) = Some (chain_id (atoms st atom))).
    { unfold loop_body. destruct (currentchain_id st) as [c|]; [|done].
      case_decide as Hc; [done|]. simpl. f_equal. by destruct (decide (chain_id (atoms st atom) = c)). }
    rewrite Hcur.
    assert (Htext : text (body iatom atom st) =
      text st ++ lead (currentchain_id st) (atoms st) (atom :: rest) ++
      [render am chainflag pdbfile ciffile (with_serial (Z.of_nat iatom + 1) (atoms st atom))]).
    { unfold loop_body, lead. rewrite set_serial_at.
      destruct (currentchain_id st) as [c|]; [|done].
      case_decide; simpl; by rewrite <-?app_assoc. }
    rewrite Htext. simpl with_terminators.
    rewrite <-!app_assoc. do 2 f_equal. simpl.
    f_equal. destruct rest as [|atom' rest']; [done|].
    simpl. by rewrite set_serial_chain.
Qed.

Lemma loop_atoms_notin atomlist : ∀ iatom st r,
  r ∉ atomlist → atoms (run_loop iatom atomlist st) r = atoms st r.
Proof.
  induction atomlist as [|atom rest IH]; intros iatom st r Hr; [done|].
  simpl loop. rewrite IH by set_solver.
  rewrite body_atoms, set_serial_other; [done|set_solver].
Qed.

Lemma loop_atoms_shape atomlist : ∀ iatom st r,
  atoms (run_loop iatom atomlist st) r =
  with_serial (serial (atoms (run_loop iatom atomlist st) r)) (atoms st r).
Proof.
  induction atomlist as [|atom rest IH]; intros iatom st r.
  - simpl. by rewrite with_serial_same.
  - simpl loop. rewrite IH at 1. by rewrite body_atoms, set_serial_renumber.
Qed.

Lemma loop_serial_last atomlist : ∀ iatom st j r,
  atomlist !! j = Some r →
  (∀ k, j < k → atomlist !! k ≠ Some r) →
  serial (atoms (run_loop iatom atomlist st) r) = (Z.of_nat (iatom + j) + 1)%Z.
Proof.
  induction atomlist as [|atom rest IH]; intros iatom st j r Hj Hlast; [done|].
  simpl loop. destruct j as [|j].
  - simplify_eq/=. rewrite loop_atoms_notin.
    + rewrite body_atoms, set_serial_at. simpl. by rewrite Nat.add_0_r.
    + intros [k Hk]%list_elem_of_lookup. by apply (Hlast (S k)); [lia|].
  - rewrite (IH (S iatom) _ j r); [f_equal; lia|done|].
    intros k Hk. apply (Hlast (S k)). lia.
Qed.

(** Terminators sit between neighbours only: cutting the rows between
    two neighbours cuts the body there, with one [TER] line at the cut
    when the two chains differ and nothing otherwise. *)
Lemma with_terminators_between (front : list (string * string)) c1 l1 c2 l2 back :
  with_terminators (front ++ (c1, l1) :: (c2, l2) :: back) =
  with_terminators (front ++ [(c1, l1)])
    ++ (if decide (c2 ≠ c1) then ["TER" +:+ PyStr.nl] else [])
    ++ with_terminators ((c2, l2) :: back).
Proof.
  induction front as [|[c l] front IH].
  - done.
  - change (with_terminators (((c, l) :: front) ++ (c1, l1) :: (c2, l2) :: back)) with
      (l :: match front ++ (c1, l1) :: (c2, l2) :: back with
            | [] => []
            | (c', _) :: _ => if decide (c' ≠ c) then ["TER" +:+ PyStr.nl] else []
            end ++ with_terminators (front ++ (c1, l1) :: (c2, l2) :: back)).
    change (with_terminators (((c, l) :: front) ++ [(c1, l1)])) with
      (l :: match front ++ [(c1, l1)] with
            | [] => []
            | (c', _) :: _ => if decide (c' ≠ c) then ["TER" +:+ PyStr.nl] else []
            end ++ with_terminators (front ++ [(c1, l1)])).
    rewrite IH. rewrite <-app_comm_cons. f_equal.
    rewrite <-!app_assoc. f_equal.
    by destruct front as [|[c' l'] front'].
Qed.

Lemma with_terminators_single c l : with_terminators [(c, l)] = [l].
Proof. reflexivity. Qed.

(** C5.  Whenever [print_biomolecule_atoms] renders (the two file flags
    are not both set) it returns, and whatever serials the atoms carried:
    the atom at position [j] is rendered with serial [j + 1]; afterwards
    an atom holds the serial of its last position in the list, so that
    over a list of distinct atoms the serial fields read 1, 2, ..., n in
    list order; nothing but serial fields is changed, and atoms outside
    the list are left alone. *)
Theorem print_biomolecule_atoms_serials (h : heap) (atomlist : list ref) :
  pdbfile && ciffile = false →
  ∃ text h',
    print_biomolecule_atoms am h atomlist chainflag pdbfile ciffile = Ok (text, h') ∧
    take (length text - (if ciffile then 0 else 1)) text
      = with_terminators (rows_of h 0 atomlist) ∧
    (∀ j r, atomlist !! j = Some r →
            (∀ k, j < k → atomlist !! k ≠ Some r) →
            serial (h' r) = (Z.of_nat j + 1)%Z) ∧
    (NoDup atomlist →
       (λ r, serial (h' r)) <$> atomlist
         = (λ j, (Z.of_nat j + 1)%Z) <$> seq 0 (length atomlist)) ∧
    (∀ r, h' r = with_serial (serial (h' r)) (h r)) ∧
    (∀ r, r ∉ atomlist → h' r = h r).
Proof.
  intros Hflags. unfold print_biomolecule_atoms. rewrite Hflags.
  eexists _, _. split; [reflexivity|].
  assert (Hlast : ∀ j r, atomlist !! j = Some r →
            (∀ k, j < k → atomlist !! k ≠ Some r) →
            serial (atoms (run_loop 0 atomlist (LoopState [] None h)) r)
              = (Z.of_nat j + 1)%Z).
  { intros j r Hj Hk. by rewrite (loop_serial_last atomlist 0 _ j r). }
  split; [|split; [done|split; [|split]]].
  - rewrite loop_text. simpl.
    destruct ciffile; simpl.
    + by rewrite Nat.sub_0_r, firstn_all.
    + rewrite length_app. simpl. rewrite Nat.add_sub.
      by rewrite take_app_length.
  - intros Hnd. apply list_eq. intros j.
    rewrite !list_lookup_fmap.
    destruct (atomlist !! j) as [r|] eqn:Hj; simpl.
    + rewrite lookup_seq_lt by (by eapply lookup_lt_Some). simpl. f_equal.
      apply Hlast; [done|]. intros k Hk Hk'.
      pose proof (NoDup_lookup _ _ _ _ Hnd Hj Hk'). lia.
    + rewrite lookup_seq_ge; [done|]. by apply lookup_ge_None.
  - intros r. by rewrite (loop_atoms_shape atomlist 0 _ r) at 1.
  - intros r Hr. by rewrite loop_atoms_notin.
Qed.

(** C6.  Whenever [print_biomolecule_atoms] renders, the list it returns
    is the atom body followed by the closing entry: the body holds the
    line of every atom in order, with one [TER] line between two
    consecutive atoms whose chain identifiers differ and none anywhere
    else; the closing entry, a [TER] line followed by [END], is there
    for the PDB and PQR dialects and absent for CIF. *)
Theorem print_biomolecule_atoms_terminators (h : heap) (atomlist : list ref) :
  pdbfile && ciffile = false →
  ∃ h',
    print_biomolecule_atoms am h atomlist chainflag pdbfile ciffile
      = Ok (with_terminators (rows_of h 0 atomlist)
              ++ (if ciffile then [] else ["TER" +:+ PyStr.nl +:+ "END"]), h').
Proof.
  intros Hflags. unfold print_biomolecule_atoms. rewrite Hflags.
  eexists. rewrite loop_text. simpl.
  destruct ciffile; simpl; by rewrite ?app_nil_r.
Qed.

End FormatterFacts.

Lemma print_biomolecule_atoms_serials_witness :
  ∃ text h',
    Formatter.print_biomolecule_atoms sample_methods sample_heap [0; 1; 2] true false false
      = Ok (text, h') ∧
    (λ r, serial (h' r)) <$> [0; 1; 2] = [1; 2; 3]%Z.
Proof.
  destruct (print_biomolecule_atoms_serials sample_methods true false false
              sample_heap [0; 1; 2] eq_refl)
    as (text & h' & Hrun & _ & _ & Hdense & _).
  exists text, h'. split; [exact Hrun|].
  apply Hdense. apply (bool_decide_unpack _). reflexivity.
Defined.

Lemma print_biomolecule_atoms_terminators_witness :
  ∃ h',
    Formatter.print_biomolecule_atoms sample_methods sample_heap [0; 1; 2] true false false
      = Ok (["ATOM 1 N A" +:+ PyStr.nl; "ATOM 2 CA A" +:+ PyStr.nl; "TER" +:+ PyStr.nl;
             "ATOM 3 C B" +:+ PyStr.nl; "TER" +:+ PyStr.nl +:+ "END"], h').
Proof.
  exact (print_biomolecule_atoms_terminators sample_methods true false false
           sample_heap [0; 1; 2] eq_refl).
Defined.

(** The same atom listed twice is rendered with serials 1 and 2 and is
    left with serial 2. *)
Example print_biomolecule_atoms_shared_atom :
  ∃ h',
    Formatter.print_biomolecule_atoms sample_methods sample_heap [0; 0] true false false
      = Ok (["ATOM 1 N A" +:+ PyStr.nl; "ATOM 2 N A" +:+ PyStr.nl;
             "TER" +:+ PyStr.nl +:+ "END"], h') ∧
    serial (h' 0) = 2%Z.
Proof. eexists. split; reflexivity. Qed.

(** Both flags set: nothing is rendered. *)
Example print_biomolecule_atoms_both_flags :
  Formatter.print_biomolecule_atoms sample_methods sample_heap [0; 1; 2] true true true
    = Raise (ValueError "Cannot be both a pdb and cif file. Pick one.").
Proof. reflexivity. Qed.

(** ** The header synthesizer *)

Section StringFacts.

Lemma append_cons c s t : String c s +:+ t = String c (s +:+ t).
Proof. reflexivity. Qed.

Lemma append_nil_l s : EmptyString +:+ s = s.
Proof. reflexivity. Qed.

Lemma append_nil_r s : s +:+ EmptyString = s.
Proof. induction s as [|c s IH]; [done|]. by rewrite append_cons, IH. Qed.

Lemma append_assoc s t u : (s +:+ t) +:+ u = s +:+ (t +:+ u).
Proof. induction s as [|c s IH]; [done|]. by rewrite !append_cons, IH. Qed.

Lemma prefix_append p t : String.prefix p (p +:+ t) = true.
Proof.
  induction p as [|c p IH]; [by destruct t|].
  rewrite append_cons. simpl. by destruct (ascii_dec c c).
Qed.

Lemma prefix_append_more p s t :
  String.prefix p s = true → String.prefix p (s +:+ t) = true.
Proof.
  revert s. induction p as [|c p IH]; intros s Hp.
  - by destruct (s +:+ t).
  - destruct s as [|c' s]; [done|]. rewrite append_cons. simpl in *.
    destruct (ascii_dec c c'); [by apply IH|done].
Qed.

Lemma occurrences_prefix p s :
  String.prefix p s = true → 1 ≤ PyStr.occurrences p s.
Proof. destruct s; simpl; intros ->; lia. Qed.

Lemma occurrences_append c p s t :
  PyStr.occurrences (String c p) s + PyStr.occurrences (String c p) t
  ≤ PyStr.occurrences (String c p) (s +:+ t).
Proof.
  induction s as [|c' s IH]; [done|].
  rewrite append_cons.
  change (PyStr.occurrences (String c p) (String c' s)) with
    ((if String.prefix (String c p) (String c' s) then 1 else 0)
     + PyStr.occurrences (String c p) s).
  change (PyStr.occurrences (String c p) (String c' (s +:+ t))) with
    ((if String.prefix (String c p) (String c' (s +:+ t)) then 1 else 0)
     + PyStr.occurrences (String c p) (s +:+ t)).
  destruct (String.prefix (String c p) (String c' s)) eqn:Hp.
  - pose proof (prefix_append_more _ _ t Hp) as Hp'.
    rewrite append_cons in Hp'. rewrite Hp'. lia.
  - destruct (String.prefix _ (String c' (s +:+ t))); lia.
Qed.

Lemma begins_append p s t : PyStr.begins p s → PyStr.begins p (s +:+ t).
Proof. intros [r ->]. exists (r +:+ t). apply append_assoc. Qed.

Lemma begins_foldl {A} p (f g : A → string) (l : list A) : ∀ s,
  PyStr.begins p s → PyStr.begins p (foldl (λ s a, (s +:+ f a) +:+ g a) s l).
Proof.
  induction l as [|a l IH]; intros s Hs; [done|].
  simpl. apply IH. by do 2 apply begins_append.
Qed.

End StringFacts.

Section HeaderFacts.
Import Header.
Variable cfg : Config.
Variable am : AtomMethods.

Lemma opening_banner force_field ffout :
  String.prefix banner (opening cfg force_field ffout) = true.
Proof.
  unfold opening, PyStr.join. simpl String.concat.
  rewrite append_assoc. apply prefix_append.
Qed.

(** Evaluation of C1.  [print_pqr_header] fails only on a pKa method
    without a pH; otherwise the string it returns begins with the opening
    part (banner, forcefield, naming scheme) twice over, so that the
    banner occurs at least twice in every header. *)
Theorem print_pqr_header_opening_twice
    pdblist atomlist reslist charge force_field ph_calc_method ph ffout
    include_old_header :
  match print_pqr_header cfg am pdblist atomlist reslist charge force_field
          ph_calc_method ph ffout include_old_header with
  | Ok head =>
      PyStr.begins (opening cfg force_field ffout +:+ opening cfg force_field ffout) head ∧
      2 ≤ PyStr.occurrences banner head
  | Raise e => e = TypeError ∧ ph = None ∧ ph_calc_method ≠ None
  end.
Proof.
  set (O := opening cfg force_field ffout).
  assert (Htwice : ∀ head, PyStr.begins (O +:+ O) head →
            PyStr.begins (O +:+ O) head ∧ 2 ≤ PyStr.occurrences banner head).
  { intros head Hb. split; [done|]. destruct Hb as [r ->].
    rewrite append_assoc.
    pose proof (occurrences_append "R" "EMARK   1 PQR file generated by PDB2PQR"
                  O (O +:+ r)) as H1.
    pose proof (occurrences_prefix banner O (opening_banner _ _)) as H2.
    pose proof (occurrences_prefix banner (O +:+ r)
                  (prefix_append_more _ _ _ (opening_banner _ _))) as H3.
    fold O in H2, H3. unfold banner in *. lia. }
  unfold print_pqr_header. cbv zeta.
  set (head0 := PyStr.join PyStr.nl (banner :: _)).
  set (head1 := match ffout with Some _ => _ | None => head0 end).
  assert (Hhead1 : head1 = O).
  { subst head1 head0 O. unfold opening. destruct ffout; [done|].
    by rewrite append_nil_r. }
  assert (Hdouble : PyStr.begins (O +:+ O) (head1 +:+ (head1 +:+ ("REMARK   1" +:+ PyStr.nl)))).
  { rewrite Hhead1. eexists. by rewrite append_assoc. }
  revert Hdouble. generalize (head1 +:+ (head1 +:+ ("REMARK   1" +:+ PyStr.nl))).
  clear head0 head1 Hhead1.
  intros head2 Hdouble.
  destruct ph_calc_method as [method|]; simpl.
  - destruct ph as [v|]; simpl; [|done].
    apply Htwice.
    repeat first [ case_bool_decide | destruct include_old_header
                 | apply begins_append | apply begins_foldl | done ].
  - apply Htwice.
    repeat first [ case_bool_decide | destruct include_old_header
                 | apply begins_append | apply begins_foldl | done ].
Qed.

End HeaderFacts.

(** C1 at a concrete call: with no forcefield, naming scheme or pKa
    method, the banner and the forcefield line are each there twice. *)
Example print_pqr_header_plain :
  ∃ head,
    Header.print_pqr_header sample_cfg sample_methods [] [] [] PyNum.f_zero
      None None None None false = Ok head ∧
    head = PyStr.join PyStr.nl
      [ "REMARK   1 PQR file generated by PDB2PQR";
        "REMARK   1 PDB2PQR: biomolecular structure conversion software.";
        "REMARK   1";
        "REMARK   1 Forcefield Used: User force field";
        "REMARK   1 PQR file generated by PDB2PQR";
        "REMARK   1 PDB2PQR: biomolecular structure conversion software.";
        "REMARK   1";
        "REMARK   1 Forcefield Used: User force field";
        "REMARK   1";
        "REMARK   6 Total charge on this biomolecule: 0.0000 e";
        "REMARK   6";
        EmptyString ] ∧
    PyStr.occurrences Header.banner head = 2 ∧
    PyStr.occurrences "Forcefield Used" head = 2.
Proof. eexists. split; [reflexivity|]. vm_compute. auto. Qed.

(** ** File lookup and retrieval *)

Section FilesFacts.
Import Files.
Variable cfg : Config.
Variable w : World.

Lemma for_first_None {A B} (l : list A) (body : A → option B) :
  for_first l body = None ↔ ∀ a, a ∈ l → body a = None.
Proof.
  induction l as [|a l IH]; simpl.
  - split; [|done]. intros _ a Ha. by apply not_elem_of_nil in Ha.
  - destruct (body a) eqn:Hb.
    + split; [done|]. intros H. specialize (H a). rewrite Hb in H.
      apply H. by left.
    + rewrite IH. split.
      * intros H a' [->|Ha']%elem_of_cons; auto.
      * intros H a' Ha'. apply H. by right.
Qed.

Lemma candidates_None n t :
  for_first (test_dirs w) (λ test_dir,
    for_first (test_names n) (λ test_name,
      for_first (test_suffixes t) (λ test_suffix,
        let test_path := path_div w test_dir (test_name +:+ test_suffix) in
        if is_file w test_path then Some test_path else None))) = None
  ↔ ∀ d tn sfx, d ∈ test_dirs w → tn ∈ test_names n → sfx ∈ test_suffixes t →
      is_file w (path_div w d (tn +:+ sfx)) = false.
Proof.
  rewrite for_first_None. split.
  - intros H d tn sfx Hd Htn Hsfx.
    specialize (H d Hd). rewrite for_first_None in H.
    specialize (H tn Htn). rewrite for_first_None in H.
    specialize (H sfx Hsfx). simpl in H. by destruct (is_file w _).
  - intros H d Hd. apply for_first_None. intros tn Htn.
    apply for_first_None. intros sfx Hsfx. simpl.
    by rewrite (H d tn sfx).
Qed.

(** C9.  With [name] equal to [None], [test_for_file] returns the empty
    string whatever [type_] is, and raises nothing.  It raises
    [FileNotFoundError] only for a name that is not [None], and then no
    combination of directory, name variant and suffix is a file; and
    when none is, it does raise it. *)
Theorem test_for_file_none_and_not_found :
  (∀ type_, test_for_file cfg w None type_ = Ok EmptyStr) ∧
  (∀ name type_ msg,
     test_for_file cfg w name type_ = Raise (FileNotFoundError msg) →
     ∃ n t, name = Some n ∧ type_ = Some t ∧
       ∀ d tn sfx, d ∈ test_dirs w → tn ∈ test_names n → sfx ∈ test_suffixes t →
         is_file w (path_div w d (tn +:+ sfx)) = false) ∧
  (∀ n t,
     (∀ d tn sfx, d ∈ test_dirs w → tn ∈ test_names n → sfx ∈ test_suffixes t →
        is_file w (path_div w d (tn +:+ sfx)) = false) →
     ∃ msg, test_for_file cfg w (Some n) (Some t) = Raise (FileNotFoundError msg)).
Proof.
  split; [done|]. split.
  - intros [n|] [t|] msg; try done.
    unfold test_for_file. cbn [mbind result_bind].
    destruct (for_first _ _) eqn:Hfor; [done|]. intros _.
    exists n, t. repeat split. by apply candidates_None.
  - intros n t Hnone.
    apply candidates_None in Hnone. unfold test_for_file.
    cbn [mbind result_bind]. cbv zeta in Hnone |- *. rewrite Hnone. by eexists.
Qed.

(** Evaluation of C3.  For a name that is not an existing file the call
    reaches [requests.get] with [requests] unbound in the module: it
    raises [NameError] and fetches nothing. *)
Theorem get_pdb_file_requests_unbound (name : string) :
  is_file w name = false →
  (get_pdb_file w name).2 = Raise (NameError "requests") ∧
  filter is_fetch (get_pdb_file w name).1 = [].
Proof.
  intros Hfile. unfold get_pdb_file, get_pdb_file_in. rewrite Hfile.
  rewrite bool_decide_eq_false_2; [done|].
  apply (bool_decide_unpack _). vm_compute. exact I.
Qed.

(** With [requests] imported the same body fetches once, and a status
    other than 200 gives an [IOError] whose message ends with the URL. *)
Lemma get_pdb_file_in_with_requests (names : list string) (name : string) :
  "requests" ∈ names →
  is_file w name = false →
  let url := "https://files.rcsb.org/download/" +:+ stem w name +:+ ".pdb" in
  filter is_fetch (get_pdb_file_in names w name).1 = [HttpGet url] ∧
  (status_code (requests_get w url) ≠ 200%Z →
   ∃ msg, (get_pdb_file_in names w name).2 = Raise (IOError msg) ∧ ends_with msg url).
Proof.
  intros Hin Hfile url. unfold get_pdb_file_in. rewrite Hfile.
  rewrite bool_decide_eq_true_2 by done. fold url.
  case_bool_decide as Hst; simpl; (split; [done|]); [|done].
  intros _. eexists. split; [done|].
  exists ("Got code " +:+ PyStr.str_int (status_code (requests_get w url)) +:+ " while retrieving ").
  by rewrite !append_assoc.
Qed.

End FilesFacts.

Lemma test_for_file_none_and_not_found_witness :
  ∃ n t, Some "amber" = Some n ∧ Some "DAT" = Some t ∧
    ∀ d tn sfx, d ∈ Files.test_dirs sample_world → tn ∈ Files.test_names n →
      sfx ∈ Files.test_suffixes t →
      Files.is_file sample_world (Files.path_div sample_world d (tn +:+ sfx)) = false.
Proof.
  destruct (test_for_file_none_and_not_found sample_cfg sample_world) as (_ & H & _).
  apply (H (Some "amber") (Some "DAT") "Unable to find DAT file for AMBER").
  reflexivity.
Defined.

Lemma get_pdb_file_requests_unbound_witness :
  (Files.get_pdb_file sample_world "1abc").2 = Raise (NameError "requests") ∧
  filter Files.is_fetch (Files.get_pdb_file sample_world "1abc").1 = [].
Proof. apply get_pdb_file_requests_unbound. reflexivity. Defined.

(** ** The columnar remapper *)

Section RemapFacts.
Import Remap.

Lemma accepted_iff line :
  accepted line = true ↔ length line = 23 ∨ length line = 25.
Proof.
  unfold accepted. rewrite bool_decide_eq_true, !elem_of_cons, elem_of_nil.
  tauto.
Qed.

Lemma append_cells_ok line c :
  accepted line = true →
  ∃ c', append_cells line c = Ok c' ∧
    as_tuple c' = zip_with (λ col i, col ++ [nth i line EmptyString]) (as_tuple c) positions.
Proof.
  intros Hacc%accepted_iff.
  do 23 (destruct line as [|? line]; [simpl in Hacc; lia|]).
  destruct line as [|? line]; [by eexists|].
  destruct line as [|? line]; [simpl in Hacc; lia|].
  destruct line as [|? line]; [by eexists|].
  simpl in Hacc; lia.
Qed.

Lemma accepted_lines_cons line rest :
  accepted_lines (line :: rest) =
  if accepted (PyStr.split line) then PyStr.split line :: accepted_lines rest
  else accepted_lines rest.
Proof.
  unfold accepted_lines. rewrite fmap_cons, filter_cons.
  destruct (accepted (PyStr.split line)); by case_decide.
Qed.

Lemma fill_spec pdb_lines : ∀ c,
  ∃ c', fill pdb_lines c = Ok c' ∧
    as_tuple c' =
    zip_with (++) (as_tuple c) (column_at (accepted_lines pdb_lines) <$> positions).
Proof.
  induction pdb_lines as [|line rest IH]; intros c.
  - exists c. split; [done|]. simpl. by rewrite !app_nil_r.
  - simpl fill. rewrite accepted_lines_cons.
    destruct (accepted (PyStr.split line)) eqn:Hacc; simpl negb; cbv iota.
    + destruct (append_cells_ok _ c Hacc) as (c1 & -> & Hc1).
      destruct (IH c1) as (c' & Hfill & Hc').
      exists c'. split; [done|]. rewrite Hc', Hc1.
      simpl. by rewrite <-!app_assoc.
    + apply IH.
Qed.

(** C4 (as amended).  [generate_atom_site_columns] returns for every
    list of lines.  A line is accepted exactly when it has 23 or 25
    whitespace-separated tokens; the tuple returned has twenty-one
    entries, each holding one token of every accepted line, in order, and
    nothing of any other line, so that all entries have the length of
    the list of accepted lines. *)
Theorem generate_atom_site_columns_shape (pdb_lines : list string) :
  (∀ line, accepted line = true ↔ length line = 23 ∨ length line = 25) ∧
  ∃ cols,
    generate_atom_site_columns pdb_lines = Ok cols ∧
    cols = column_at (accepted_lines pdb_lines) <$> positions ∧
    length cols = 21 ∧
    Forall (λ col, length col = length (accepted_lines pdb_lines)) cols.
Proof.
  split; [apply accepted_iff|].
  destruct (fill_spec pdb_lines no_columns) as (c & Hfill & Hc).
  exists (as_tuple c). unfold generate_atom_site_columns. rewrite Hfill.
  split; [done|].
  assert (Hcols : as_tuple c = column_at (accepted_lines pdb_lines) <$> positions).
  { by rewrite Hc. }
  split; [done|]. rewrite Hcols. split; [done|].
  apply Forall_fmap, Forall_forall. intros i _. simpl.
  unfold column_at. by rewrite length_fmap.
Qed.

End RemapFacts.

(** C4 as stated fails on the number of sequences: the tuple has
    twenty-one entries, not eighteen. *)
Lemma generate_atom_site_columns_not_eighteen :
  ∃ cols,
    Remap.generate_atom_site_columns [sample_site_line] = Ok cols ∧
    length cols ≠ 18.
Proof. eexists. split; [reflexivity|]. vm_compute. lia. Qed.

(** A line of 23 tokens gives one entry to every column, a line of 24
    gives none. *)
Example generate_atom_site_columns_lock_step :
  Remap.generate_atom_site_columns [sample_site_line; sample_long_line]
  = Ok [ ["ATOM"]; ["1"]; ["N"]; ["N"]; ["."]; ["MET"]; ["A"]; ["1"]; ["1"]; ["?"];
         ["27.340"]; ["24.430"]; ["2.614"]; ["1.00"]; ["9.67"]; ["?"];
         ["1"]; ["MET"]; ["A"]; ["N"]; ["1"] ].
Proof. vm_compute. reflexivity. Qed.

(** ** The grid codec *)

Section CubeFacts.
Import Grid.

Lemma chunks_fuel_nil {A} fuel n : chunks_fuel fuel n (@nil A) = [].
Proof. by destruct fuel. Qed.

Lemma chunks_fuel_cons {A} fuel n (a : A) l :
  chunks_fuel (S fuel) n (a :: l) = take n (a :: l) :: chunks_fuel fuel n (drop n (a :: l)).
Proof. reflexivity. Qed.

Lemma chunks_fuel_concat {A} n (Hn : 0 < n) fuel : ∀ l : list A,
  length l ≤ fuel → concat (chunks_fuel fuel n l) = l.
Proof.
  induction fuel as [|fuel IH]; intros l Hl.
  - by destruct l; [|simpl in Hl; lia].
  - destruct l as [|a l]; [done|]. rewrite chunks_fuel_cons. simpl concat.
    rewrite IH; [apply take_drop|].
    rewrite length_drop. simpl in *. lia.
Qed.

Lemma chunks_fuel_lengths {A} n (Hn : 0 < n) fuel : ∀ (l : list A) k c,
  chunks_fuel fuel n l !! k = Some c →
  (1 ≤ length c ≤ n) ∧ (S k < length (chunks_fuel fuel n l) → length c = n).
Proof.
  induction fuel as [|fuel IH]; intros l k c Hk; [done|].
  destruct l as [|a l]; [done|]. rewrite chunks_fuel_cons in *.
  destruct k as [|k].
  - change ((take n (a :: l) :: ?t) !! 0) with (Some (take n (a :: l))) in Hk.
    apply (inj Some) in Hk as <-. rewrite length_take.
    change (length (a :: l)) with (S (length l)). split; [lia|].
    intros Hmore.
    destruct (chunks_fuel fuel n (drop n (a :: l))) eqn:Hrest; [simpl in Hmore; lia|].
    destruct (decide (n ≤ S (length l))) as [|Hshort]; [lia|].
    rewrite drop_ge in Hrest by (simpl; lia). by rewrite chunks_fuel_nil in Hrest.
  - simpl in Hk. destruct (IH _ _ _ Hk) as [H1 H2]. split; [done|].
    intros Hmore. apply H2. simpl in Hmore. lia.
Qed.

Lemma value_lines_lookup cs : ∀ k c,
  cs !! k = Some c →
  value_lines cs !! k =
    Some (PyStr.join " " (e13 <$> c) +:+
          (if bool_decide (S k < length cs) then PyStr.nl else EmptyString)).
Proof.
  induction cs as [|c0 cs IH]; intros k c Hk; [done|].
  destruct k as [|k].
  - simplify_eq/=. destruct cs as [|c1 cs]; simpl.
    + by rewrite append_nil_r.
    + done.
  - simpl in Hk. destruct cs as [|c1 cs]; [done|].
    change (value_lines (c0 :: c1 :: cs)) with
      ((PyStr.join " " (e13 <$> c0) +:+ PyStr.nl) :: value_lines (c1 :: cs)).
    rewrite lookup_cons. rewrite (IH k c Hk).
    do 2 f_equal. rewrite (bool_decide_ext (S k < length (c1 :: cs))
                            (S (S k) < length (c0 :: c1 :: cs))); [done|].
    simpl. lia.
Qed.

Lemma write_values_loop (vals : list PyNum.float) (body : nat → cube_io unit) :
  (∀ i, body i =
     if i + 6 <? length vals
     then write (PyStr.join " " (e13 <$> take (i + 6 - i) (drop i vals)) +:+ PyStr.nl)
     else write (PyStr.join " " (e13 <$> drop i vals))) →
  ∀ fuel i, length vals - i ≤ fuel →
    for_each (range_from fuel i (length vals) 6) body
    = CubeIO (value_lines (chunks_fuel fuel 6 (drop i vals))) (Ok tt).
Proof.
  intros Hbody. induction fuel as [|fuel IH]; intros i Hfuel.
  - done.
  - simpl range_from. destruct (Nat.ltb_spec i (length vals)) as [Hi|Hi].
    + destruct (drop i vals) as [|v tl] eqn:Hdrop.
      { apply (f_equal length) in Hdrop. rewrite length_drop in Hdrop. simpl in Hdrop. lia. }
      rewrite chunks_fuel_cons, <-Hdrop, drop_drop.
      simpl for_each. rewrite (IH (i + 6)) by lia. rewrite Hbody.
      destruct (Nat.ltb_spec (i + 6) (length vals)) as [Hmore|Hlast].
      * replace (i + 6 - i) with 6 by lia.
        destruct fuel as [|fuel']; [lia|].
        destruct (drop (i + 6) vals) as [|v' tl'] eqn:Hdrop'.
        { apply (f_equal length) in Hdrop'. rewrite length_drop in Hdrop'. simpl in Hdrop'. lia. }
        by rewrite chunks_fuel_cons.
      * rewrite (drop_ge vals (i + 6)) by lia. rewrite chunks_fuel_nil.
        rewrite take_ge; [done|]. rewrite length_drop. lia.
    + by rewrite drop_ge by lia.
Qed.

Lemma write_values_spec (vals : list PyNum.float) :
  write_values vals = CubeIO (value_lines (chunks 6 vals)) (Ok tt).
Proof.
  unfold write_values, range, chunks. cbv zeta.
  rewrite (write_values_loop vals _ (λ i, eq_refl)) by lia.
  by rewrite drop_0.
Qed.

(** C8 (as amended).  [write_cube] writes the values after everything
    else, and only when the rest was written without an exception.  The
    values are cut, in order, into chunks of six, the last chunk holding
    between one and six; every chunk is one write: its fields joined by
    single spaces, followed by a line break for every chunk but the
    last.  A field is the value in scientific notation with five
    decimals, preceded by [-] when it is negative and by a space
    otherwise, and left-justified: padded with spaces on the right up to
    thirteen characters. *)
Theorem write_cube_values (data_dict : dx_dict) (atom_list : list Atom) (comment : string) :
  let head := write_head data_dict atom_list comment in
  let cs := chunks 6 (values data_dict) in
  write_cube data_dict atom_list comment =
    match returned head with
    | Ok _ => CubeIO (written head ++ value_lines cs) (Ok tt)
    | Raise e => CubeIO (written head) (Raise e)
    end ∧
  concat cs = values data_dict ∧
  (∀ k c, cs !! k = Some c →
     (1 ≤ length c ≤ 6) ∧ (S k < length cs → length c = 6) ∧
     value_lines cs !! k =
       Some (PyStr.join " " (e13 <$> c) +:+
             (if bool_decide (S k < length cs) then PyStr.nl else EmptyString))) ∧
  length (value_lines cs) = length cs ∧
  (∀ v, e13 v =
     let field := PyNum.sign_text PyNum.SignSpace v +:+
                  PyNum.magnitude_text PyNum.SciUpper 5 v in
     field +:+ PyStr.spaces (13 - String.length field)).
Proof.
  intros head cs. split; [|split; [|split; [|split]]].
  - unfold write_cube. rewrite write_values_spec. fold head cs.
    unfold mbind, cube_io_bind. by destruct (returned head).
  - apply chunks_fuel_concat; lia.
  - intros k c Hk.
    destruct (chunks_fuel_lengths 6 ltac:(lia) _ _ _ _ Hk) as [H1 H2].
    split; [done|]. split; [done|]. by apply value_lines_lookup.
  - clear. induction cs as [|c [|c' cs'] IH]; [done..|].
    change (value_lines (c :: c' :: cs')) with
      ((PyStr.join " " (e13 <$> c) +:+ PyStr.nl) :: value_lines (c' :: cs')).
    simpl length in *. by rewrite IH.
  - done.
Qed.

End CubeFacts.

Lemma write_cube_values_witness :
  Grid.value_lines (Grid.chunks 6 (Grid.values sample_grid)) !! 1
  = Some " 7.00000E+00   8.00000E+00 ".
Proof.
  destruct (write_cube_values sample_grid [] "CPMD CUBE FILE.") as (_ & _ & H & _).
  destruct (H 1 (drop 6 (Grid.values sample_grid)) eq_refl) as (_ & _ & ->).
  reflexivity.
Defined.

(** C8 as stated fails on the justification: the field of a value is
    padded on the right, so the value 1.0 is written as the sign
    position (a space, not a plus sign), the digits and then a space. *)
Lemma write_cube_field_not_right_justified :
  Grid.written (Grid.write_cube sample_grid [] "CPMD CUBE FILE.") !! 6
    = Some (" 1.00000E+00   2.00000E+00   3.00000E+00 " +:+
            "  4.00000E+00   5.00000E+00   6.00000E+00 " +:+ PyStr.nl) ∧
  Grid.e13 PyNum.f_one = " 1.00000E+00 " ∧
  Grid.e13 PyNum.f_one ≠ PyStr.pad PyStr.AlignRight 13 " 1.00000E+00" ∧
  PyStr.startswith (Grid.e13 PyNum.f_one) "+" = false.
Proof. vm_compute. repeat split; discriminate. Qed.

Section ReaderFacts.
Import Grid.
Variable float_of : string → result PyNum.float.

Lemma split_blank line : blank line = true ↔ PyStr.split line = [].
Proof.
  unfold blank. induction line as [|c s IH]; [done|].
  simpl. destruct (PyStr.is_space c); simpl; [done|].
  split; [done|].
  destruct s as [|c' s']; [done|].
  destruct (PyStr.is_space c'); [done|]. by destruct (PyStr.split _).
Qed.

Lemma read_line_blank d line :
  blank line = true → read_line float_of d line = Raise IndexError.
Proof.
  intros Hb%split_blank. unfold read_line, words_of. by rewrite Hb.
Qed.

Lemma read_lines_app before after : ∀ d,
  read_lines float_of (before ++ after) d =
  read_lines float_of before d ≫= read_lines float_of after.
Proof.
  induction before as [|line before IH]; intros d; [done|].
  simpl. destruct (read_line float_of d line); [apply IH|done].
Qed.

Lemma read_lines_blank before line after d :
  blank line = true →
  is_ok (read_lines float_of (before ++ line :: after) d) = false ∧
  (is_ok (read_lines float_of before d) = true →
   read_lines float_of (before ++ line :: after) d = Raise IndexError).
Proof.
  intros Hb. rewrite read_lines_app.
  destruct (read_lines float_of before d) as [d'|e]; simpl; [|done].
  by rewrite read_line_blank.
Qed.

(** C10.  [read_dx] takes the first token of every line.  When some
    line of the input is empty or all whitespace the call raises, and
    the exception is [IndexError] when the lines before it were read;
    so it returns only on inputs all of whose lines have a token. *)
Theorem read_dx_blank_line (dx_file : list string) :
  (∀ before line after,
     dx_file = before ++ line :: after →
     blank line = true →
     is_ok (read_dx float_of dx_file) = false ∧
     (is_ok (read_dx float_of before) = true →
      read_dx float_of dx_file = Raise IndexError)) ∧
  (is_ok (read_dx float_of dx_file) = true →
   Forall (λ line, PyStr.split line ≠ []) dx_file).
Proof.
  split.
  - intros before line after -> Hb. by apply read_lines_blank.
  - intros Hok. apply Forall_forall. intros line Hin Hsplit.
    apply list_elem_of_split in Hin as (before & after & ->).
    apply split_blank in Hsplit.
    destruct (read_lines_blank before line after empty_dict Hsplit) as [Hno _].
    unfold read_dx in Hok. congruence.
Qed.

End ReaderFacts.

Lemma read_dx_blank_line_witness :
  is_ok (Grid.read_dx sample_float_of
           ["# potential" +:+ PyStr.nl; PyStr.nl; "1 2" +:+ PyStr.nl]) = false ∧
  (is_ok (Grid.read_dx sample_float_of ["# potential" +:+ PyStr.nl]) = true →
   Grid.read_dx sample_float_of
     ["# potential" +:+ PyStr.nl; PyStr.nl; "1 2" +:+ PyStr.nl] = Raise IndexError).
Proof.
  destruct (read_dx_blank_line sample_float_of
              ["# potential" +:+ PyStr.nl; PyStr.nl; "1 2" +:+ PyStr.nl]) as [H _].
  apply (H ["# potential" +:+ PyStr.nl] PyStr.nl ["1 2" +:+ PyStr.nl]); reflexivity.
Defined.

Section RoundTripFacts.
Import Grid.
Variable float_of : string → result PyNum.float.

Lemma is_ok_Ok {A} (r : result A) : is_ok r = true → ∃ a, r = Ok a.
Proof. destruct r; [by eexists|done]. Qed.

Lemma three_floats_ok key a b c rest :
  is_ok (float_of a) = true → is_ok (float_of b) = true → is_ok (float_of c) = true →
  ∃ fa fb fc, three_floats float_of (key :: a :: b :: c :: rest) = Ok [fa; fb; fc].
Proof.
  intros [fa Ha]%is_ok_Ok [fb Hb]%is_ok_Ok [fc Hc]%is_ok_Ok.
  exists fa, fb, fc. unfold three_floats. simpl. by rewrite Ha, Hb, Hc.
Qed.

Lemma append_values_ok words : ∀ vals,
  Forall (λ word, is_ok (float_of word) = true) words →
  ∃ vs, append_values float_of words vals = Ok (vals ++ vs) ∧ length vs = length words.
Proof.
  induction words as [|word words IH]; intros vals Hall.
  - exists []. by rewrite app_nil_r.
  - apply Forall_cons in Hall as [[v Hv]%is_ok_Ok Hall].
    destruct (IH (vals ++ [v]) Hall) as (vs & Hvs & Hlen).
    exists (v :: vs). simpl. rewrite Hv. simpl. rewrite Hvs, <-app_assoc.
    split; [done|]. simpl. by rewrite Hlen.
Qed.

Lemma read_value_line d line :
  value_line float_of line →
  ∃ vs, read_line float_of d line
          = Ok (DxDict (grid_spacing d) (values d ++ vs)
                       (number_of_grid_points d) (lower_left_corner d)) ∧
        length vs = length (words_of line).
Proof.
  intros (w & ws & Hwords & Hkey & Hall).
  destruct (append_values_ok (w :: ws) (values d) Hall) as (vs & Hvs & Hlen).
  exists vs. unfold read_line. rewrite Hwords. split; [|done].
  unfold keywords in Hkey. rewrite !not_elem_of_cons in Hkey.
  destruct Hkey as (H1 & H2 & H3 & H4 & H5 & H6 & _).
  cbn [index lookup list_lookup mbind result_bind].
  rewrite bool_decide_eq_false_2 by (rewrite !elem_of_cons, elem_of_nil; tauto).
  rewrite !(proj2 (String.eqb_neq _ _)) by done.
  by rewrite Hvs.
Qed.

Lemma read_value_lines lines : ∀ d,
  Forall (value_line float_of) lines →
  ∃ vs, read_lines float_of lines d
          = Ok (DxDict (grid_spacing d) (values d ++ vs)
                       (number_of_grid_points d) (lower_left_corner d)) ∧
        length vs = sum_list (length ∘ words_of <$> lines).
Proof.
  induction lines as [|line lines IH]; intros d Hall.
  - exists []. rewrite app_nil_r. by destruct d.
  - apply Forall_cons in Hall as [Hline Hall].
    destruct (read_value_line d line Hline) as (vs1 & Hread & Hlen1).
    destruct (IH (DxDict (grid_spacing d) (values d ++ vs1)
                         (number_of_grid_points d) (lower_left_corner d)) Hall)
      as (vs2 & Hrest & Hlen2).
    exists (vs1 ++ vs2). simpl. rewrite Hread. simpl. rewrite Hrest. simpl.
    rewrite <-app_assoc, length_app. split; [done|]. by rewrite Hlen1, Hlen2.
Qed.

Lemma read_origin_line d line :
  vector_line float_of "origin" line →
  ∃ fa fb fc,
    read_line float_of d line =
    Ok (DxDict (grid_spacing d) (values d) (number_of_grid_points d) (Some [fa; fb; fc])).
Proof.
  intros (a & b & c & rest & Hwords & Ha & Hb & Hc).
  destruct (three_floats_ok "origin" a b c rest Ha Hb Hc) as (fa & fb & fc & Hthree).
  exists fa, fb, fc. unfold read_line. rewrite Hwords.
  cbn [index lookup list_lookup mbind result_bind].
  rewrite bool_decide_eq_false_2 by (by apply (bool_decide_unpack _)).
  change (String.eqb "origin" "object") with false.
  change (String.eqb "origin" "origin") with true. cbv iota.
  by rewrite Hthree.
Qed.

Lemma read_delta_line d line :
  vector_line float_of "delta" line →
  ∃ fa fb fc,
    read_line float_of d line =
    Ok (DxDict (grid_spacing d ++ [[fa; fb; fc]]) (values d)
               (number_of_grid_points d) (lower_left_corner d)).
Proof.
  intros (a & b & c & rest & Hwords & Ha & Hb & Hc).
  destruct (three_floats_ok "delta" a b c rest Ha Hb Hc) as (fa & fb & fc & Hthree).
  exists fa, fb, fc. unfold read_line. rewrite Hwords.
  cbn [index lookup list_lookup mbind result_bind].
  rewrite bool_decide_eq_false_2 by (by apply (bool_decide_unpack _)).
  change (String.eqb "delta" "object") with false.
  change (String.eqb "delta" "origin") with false.
  change (String.eqb "delta" "delta") with true. cbv iota.
  by rewrite Hthree.
Qed.

Lemma read_object_line d line t2 t3 t4 tail :
  words_of line = "object" :: "1" :: t2 :: t3 :: t4 :: "2" :: "2" :: "2" :: tail →
  read_line float_of d line =
  Ok (DxDict (grid_spacing d) (values d) (Some (2, 2, 2)%Z) (lower_left_corner d)).
Proof. intros Hwords. unfold read_line. rewrite Hwords. reflexivity. Qed.

Lemma for_each_writes {A} (f : A → string) (l : list A) :
  for_each l (λ a, write (f a)) = CubeIO (f <$> l) (Ok tt).
Proof.
  induction l as [|a l IH]; [done|].
  simpl for_each. rewrite IH. done.
Qed.

Lemma write_head_complete n0 n1 n2 o0 o1 o2 a0 a1 a2 b0 b1 b2 c0 c1 c2 vals
    (atom_list : list Atom) comment :
  write_head
    (DxDict [[a0; a1; a2]; [b0; b1; b2]; [c0; c1; c2]] vals
            (Some (n0, n1, n2)) (Some [o0; o1; o2]))
    atom_list comment
  = CubeIO
      ([ comment +:+ PyStr.nl;
         "OUTER LOOP: X, MIDDLE LOOP: Y, INNER LOOP: Z" +:+ PyStr.nl;
         PyStr.format_int PyStr.AlignRight 4 (Z.of_nat (length atom_list)) +:+ " " +:+
           f11 o0 +:+ " " +:+ f11 o1 +:+ " " +:+ f11 o2 +:+ PyStr.nl;
         PyStr.format_int PyStr.AlignRight 4 (- n0) +:+ " " +:+
           f11 a0 +:+ " " +:+ f11 a1 +:+ " " +:+ f11 a2 +:+ PyStr.nl;
         PyStr.format_int PyStr.AlignRight 4 (- n1) +:+ " " +:+
           f11 b0 +:+ " " +:+ f11 b1 +:+ " " +:+ f11 b2 +:+ PyStr.nl;
         PyStr.format_int PyStr.AlignRight 4 (- n2) +:+ " " +:+
           f11 c0 +:+ " " +:+ f11 c1 +:+ " " +:+ f11 c2 +:+ PyStr.nl ]
       ++ (atom_line <$> atom_list))
      (Ok tt).
Proof. unfold write_head. rewrite for_each_writes. reflexivity. Qed.

(** C7.  Take a grid text made of an [object 1] line whose tokens 5, 6
    and 7 are [2], an [origin] line and three [delta] lines with three
    numbers each, and lines of numbers holding eight tokens in all.
    [read_dx] returns a grid with (2, 2, 2) grid points and eight
    values.  [write_cube] on that grid, with any atoms and comment,
    raises nothing and writes the comment line, the orientation line,
    the origin line, then three axis lines each beginning with the
    field [  -2], then the atoms and the values. *)
Theorem read_dx_write_cube_minimal
    (object_line origin_line delta1 delta2 delta3 : string) (value_rows : list string)
    (t2 t3 t4 : string) (tail : list string) :
  words_of object_line = "object" :: "1" :: t2 :: t3 :: t4 :: "2" :: "2" :: "2" :: tail →
  vector_line float_of "origin" origin_line →
  vector_line float_of "delta" delta1 →
  vector_line float_of "delta" delta2 →
  vector_line float_of "delta" delta3 →
  Forall (value_line float_of) value_rows →
  sum_list (length ∘ words_of <$> value_rows) = 8 →
  ∃ d,
    read_dx float_of (object_line :: origin_line :: delta1 :: delta2 :: delta3 :: value_rows)
      = Ok d ∧
    number_of_grid_points d = Some (2, 2, 2)%Z ∧
    length (values d) = 8 ∧
    ∀ (atom_list : list Atom) (comment : string),
      ∃ origin_text axis1 axis2 axis3,
        write_cube d atom_list comment =
        CubeIO
          ([ comment +:+ PyStr.nl;
             "OUTER LOOP: X, MIDDLE LOOP: Y, INNER LOOP: Z" +:+ PyStr.nl;
             origin_text;
             "  -2 " +:+ axis1;
             "  -2 " +:+ axis2;
             "  -2 " +:+ axis3 ]
           ++ (atom_line <$> atom_list)
           ++ value_lines (chunks 6 (values d)))
          (Ok tt).
Proof.
  intros Hobject Horigin Hd1 Hd2 Hd3 Hrows Hcount.
  unfold read_dx. simpl read_lines.
  rewrite (read_object_line _ _ _ _ _ _ Hobject). simpl.
  destruct (read_origin_line
              (DxDict [] [] (Some (2, 2, 2)%Z) None) origin_line Horigin)
    as (o0 & o1 & o2 & ->). simpl.
  destruct (read_delta_line
              (DxDict [] [] (Some (2, 2, 2)%Z) (Some [o0; o1; o2])) delta1 Hd1)
    as (a0 & a1 & a2 & ->). simpl.
  destruct (read_delta_line
              (DxDict [[a0; a1; a2]] [] (Some (2, 2, 2)%Z) (Some [o0; o1; o2])) delta2 Hd2)
    as (b0 & b1 & b2 & ->). simpl.
  destruct (read_delta_line
              (DxDict [[a0; a1; a2]; [b0; b1; b2]] [] (Some (2, 2, 2)%Z)
                      (Some [o0; o1; o2])) delta3 Hd3)
    as (c0 & c1 & c2 & ->). simpl.
  destruct (read_value_lines value_rows
              (DxDict [[a0; a1; a2]; [b0; b1; b2]; [c0; c1; c2]] []
                      (Some (2, 2, 2)%Z) (Some [o0; o1; o2])) Hrows)
    as (vs & -> & Hlen). simpl.
  eexists. split; [reflexivity|]. split; [done|]. split; [simpl; lia|].
  intros atom_list comment. unfold write_cube.
  rewrite write_head_complete, write_values_spec.
  exists (PyStr.format_int PyStr.AlignRight 4 (Z.of_nat (length atom_list)) +:+ " " +:+
            f11 o0 +:+ " " +:+ f11 o1 +:+ " " +:+ f11 o2 +:+ PyStr.nl),
         (f11 a0 +:+ " " +:+ f11 a1 +:+ " " +:+ f11 a2 +:+ PyStr.nl),
         (f11 b0 +:+ " " +:+ f11 b1 +:+ " " +:+ f11 b2 +:+ PyStr.nl),
         (f11 c0 +:+ " " +:+ f11 c1 +:+ " " +:+ f11 c2 +:+ PyStr.nl).
  unfold mbind, cube_io_bind. simpl returned. cbv iota.
  simpl written. reflexivity.
Qed.

End RoundTripFacts.

Lemma read_dx_write_cube_minimal_witness :
  ∃ d,
    Grid.read_dx sample_float_of sample_dx = Ok d ∧
    Grid.number_of_grid_points d = Some (2, 2, 2)%Z ∧
    length (Grid.values d) = 8.
Proof.
  destruct (read_dx_write_cube_minimal sample_float_of
              ("object 1 class gridpositions counts 2 2 2" +:+ PyStr.nl)
              ("origin 0 0 0" +:+ PyStr.nl)
              ("delta 1 0 0" +:+ PyStr.nl)
              ("delta 0 1 0" +:+ PyStr.nl)
              ("delta 0 0 1" +:+ PyStr.nl)
              ["1 2 3" +:+ PyStr.nl; "4 5 6" +:+ PyStr.nl; "7 8" +:+ PyStr.nl]
              "class" "gridpositions" "counts" [])
    as (d & Hread & Hdims & Hlen & _).
  - reflexivity.
  - by exists "0", "0", "0", [].
  - by exists "1", "0", "0", [].
  - by exists "0", "1", "0", [].
  - by exists "0", "0", "1", [].
  - repeat apply Forall_cons_2; [| | |apply Forall_nil_2].
    + exists "1", ["2"; "3"]. split; [reflexivity|]. split; [|by repeat constructor].
      by apply (bool_decide_unpack _).
    + exists "4", ["5"; "6"]. split; [reflexivity|]. split; [|by repeat constructor].
      by apply (bool_decide_unpack _).
    + exists "7", ["8"]. split; [reflexivity|]. split; [|by repeat constructor].
      by apply (bool_decide_unpack _).
  - reflexivity.
  - by exists d.
Defined.

(** The sample grid file, read and written back. *)
Example read_dx_write_cube_sample :
  Grid.read_dx sample_float_of sample_dx = Ok sample_grid ∧
  Grid.write_cube sample_grid [] "CPMD CUBE FILE." =
  Grid.CubeIO
    [ "CPMD CUBE FILE." +:+ PyStr.nl;
      "OUTER LOOP: X, MIDDLE LOOP: Y, INNER LOOP: Z" +:+ PyStr.nl;
      "   0    0.000000    0.000000    0.000000" +:+ PyStr.nl;
      "  -2    1.000000    0.000000    0.000000" +:+ PyStr.nl;
      "  -2    0.000000    1.000000    0.000000" +:+ PyStr.nl;
      "  -2    0.000000    0.000000    1.000000" +:+ PyStr.nl;
      " 1.00000E+00   2.00000E+00   3.00000E+00 " +:+
      "  4.00000E+00   5.00000E+00   6.00000E+00 " +:+ PyStr.nl;
      " 7.00000E+00   8.00000E+00 " ]
    (Ok tt).
Proof. split; vm_compute; reflexivity. Qed.

(* ================================================================== *)
(** * Further properties *)

(** ** The throttle over a run of warnings *)

Section StreamFacts.
Import Throttle Stream.
Variable cfg : Config.

Lemma filter_first_match (wc : gmap string nat) record before p after :
  FILTER_WARNINGS cfg = before ++ p :: after →
  warns before p record →
  filter cfg wc record =
    let n := Z.of_nat (S (count wc p)) in
    if (FILTER_WARNINGS_LIMIT cfg <? n)%Z then Outcome false [] (update wc p)
    else if (n =? FILTER_WARNINGS_LIMIT cfg)%Z
         then Outcome false [notice p] (update wc p)
         else Outcome true [] (update wc p).
Proof.
  intros Hsplit (Hlvl & Hbefore & Hp). unfold filter.
  rewrite Hlvl, Hsplit. simpl String.eqb. cbv iota.
  rewrite filter_loop_skip by done. simpl. rewrite Hp.
  by rewrite count_update_same.
Qed.

(** X1.  Over a run of warnings that all fall to the same watched prefix
    [p], the warning in position [k] (from 0) is allowed exactly when the
    count of [p] before the run plus [k + 1] is below the limit; the notice
    is logged once when the count passes from below the limit to the limit
    during the run, and not at all otherwise. *)
Theorem filter_run_counts (wc : gmap string nat) records before p after :
  FILTER_WARNINGS cfg = before ++ p :: after →
  Forall (warns before p) records →
  allowed <$> filter_run cfg wc records
    = (λ k, bool_decide (Z.of_nat (count wc p + k + 1) < FILTER_WARNINGS_LIMIT cfg)%Z)
        <$> seq 0 (length records) ∧
  concat (logged <$> filter_run cfg wc records)
    = if bool_decide (Z.of_nat (count wc p) < FILTER_WARNINGS_LIMIT cfg
                      ≤ Z.of_nat (count wc p + length records))%Z
      then [notice p] else [].
Proof.
  intros Hsplit Hall. revert wc.
  induction Hall as [|record records Hrec _ IH]; intros wc.
  - simpl. split; [done|]. rewrite bool_decide_eq_false_2; [done|lia].
  - simpl filter_run. rewrite (filter_first_match wc record before p after Hsplit Hrec).
    cbv zeta.
    assert (Hwc : ∀ a l, warn_count
      (if (FILTER_WARNINGS_LIMIT cfg <? Z.of_nat (S (count wc p)))%Z
       then Outcome false [] (update wc p)
       else if (Z.of_nat (S (count wc p)) =? FILTER_WARNINGS_LIMIT cfg)%Z
            then Outcome a l (update wc p) else Outcome true [] (update wc p))
      = update wc p) by (intros; by repeat case_match).
    rewrite Hwc. destruct (IH (update wc p)) as [IHa IHl].
    rewrite count_update_same in IHa, IHl.
    cbn [length seq]. rewrite !fmap_cons. cbn [concat]. rewrite IHa, IHl.
    rewrite <-fmap_S_seq, <-list_fmap_compose.
    split.
    + f_equal.
      * destruct (Z.ltb_spec (FILTER_WARNINGS_LIMIT cfg) (Z.of_nat (S (count wc p))));
          [|destruct (Z.eqb_spec (Z.of_nat (S (count wc p))) (FILTER_WARNINGS_LIMIT cfg))];
          simpl; symmetry; [apply bool_decide_eq_false_2|apply bool_decide_eq_false_2|
                            apply bool_decide_eq_true_2]; lia.
      * apply list_fmap_ext. intros _ k _. simpl. apply bool_decide_ext. lia.
    + destruct (Z.ltb_spec (FILTER_WARNINGS_LIMIT cfg) (Z.of_nat (S (count wc p))));
        [|destruct (Z.eqb_spec (Z.of_nat (S (count wc p))) (FILTER_WARNINGS_LIMIT cfg))];
        simpl; repeat case_bool_decide; try done; lia.
Qed.

Lemma filter_loop_counts limit fwarns message (wc : gmap string nat) k :
  count wc k ≤ count (warn_count (filter_loop limit fwarns message wc)) k
    ≤ S (count wc k) ∧
  (k ∉ fwarns → count (warn_count (filter_loop limit fwarns message wc)) k = count wc k).
Proof.
  induction fwarns as [|fwarn rest IH]; simpl; [by split; [lia|]|].
  destruct (PyStr.startswith message fwarn).
  - assert (Hwc : ∀ (a b c : bool) (l : list string),
      warn_count (if a then Outcome false [] (update wc fwarn)
                  else if b then Outcome c l (update wc fwarn)
                       else Outcome true [] (update wc fwarn)) = update wc fwarn)
      by (intros; by repeat case_match).
    rewrite Hwc. destruct (decide (fwarn = k)) as [->|Hne].
    + rewrite count_update_same. split; [lia|]. intros Hk. exfalso. apply Hk. by left.
    + rewrite count_update_other by done. split; [lia|done].
  - destruct IH as [IH1 IH2]. split; [done|].
    intros Hk. apply IH2. intros Hin. apply Hk. by right.
Qed.

(** X2.  A call of [filter] never lowers a counter, raises a counter by
    at most one, and leaves the counter of every text that is not a
    watched prefix where it was. *)
Theorem filter_counters (wc : gmap string nat) record k :
  count wc k ≤ count (warn_count (filter cfg wc record)) k ≤ S (count wc k) ∧
  (k ∉ FILTER_WARNINGS cfg → count (warn_count (filter cfg wc record)) k = count wc k).
Proof.
  unfold filter. destruct (String.eqb _ _); [apply filter_loop_counts|].
  simpl. split; [lia|done].
Qed.

End StreamFacts.

Lemma filter_run_counts_witness :
  Throttle.allowed <$> Stream.filter_run sample_cfg (∅ : gmap string nat)
      [occupancy_warning; occupancy_warning; occupancy_warning; occupancy_warning]
    = [true; true; false; false] ∧
  concat (Throttle.logged <$> Stream.filter_run sample_cfg (∅ : gmap string nat)
      [occupancy_warning; occupancy_warning; occupancy_warning; occupancy_warning])
    = [Throttle.notice "Multiple occupancies found"].
Proof.
  destruct (filter_run_counts sample_cfg (∅ : gmap string nat)
           [occupancy_warning; occupancy_warning; occupancy_warning; occupancy_warning]
           ["Skipped atom during water optimization"; "The best donorH was not picked"]
           "Multiple occupancies found" []) as [Hallowed Hlogged].
  - reflexivity.
  - repeat apply Forall_cons_2; [..|apply Forall_nil_2];
      (split; [reflexivity|split; [|reflexivity]]);
      (repeat apply Forall_cons_2; [..|apply Forall_nil_2]; reflexivity).
  - split; [rewrite Hallowed|rewrite Hlogged]; vm_compute; reflexivity.
Defined.

Lemma filter_counters_witness :
  Throttle.count (Throttle.warn_count
    (Throttle.filter sample_cfg (∅ : gmap string nat) occupancy_warning)) "Multiple occupancies" = 0.
Proof.
  destruct (filter_counters sample_cfg (∅ : gmap string nat) occupancy_warning "Multiple occupancies")
    as [_ H].
  rewrite H; [reflexivity|].
  apply (bool_decide_unpack _). vm_compute. exact I.
Defined.

(** ** More on the structure record formatter *)

Section FormatterMore.
Import Formatter Chains.
Variable am : AtomMethods.
Variables chainflag pdbfile ciffile : bool.

Lemma rows_up_to_serial (h1 h2 : heap) first atomlist :
  (∀ r, h2 r = with_serial (serial (h2 r)) (h1 r)) →
  rows am chainflag pdbfile ciffile h2 first atomlist
  = rows am chainflag pdbfile ciffile h1 first atomlist.
Proof.
  intros Hsame. revert first.
  induction atomlist as [|a rest IH]; intros first; [done|].
  simpl. rewrite IH. by rewrite (Hsame a).
Qed.

Lemma last_position (atomlist : list ref) r :
  r ∈ atomlist →
  ∃ j, atomlist !! j = Some r ∧ ∀ k, j < k → atomlist !! k ≠ Some r.
Proof.
  induction atomlist as [|a rest IH]; intros Hin.
  - by apply not_elem_of_nil in Hin.
  - destruct (decide (r ∈ rest)) as [Hrest|Hrest].
    + destruct (IH Hrest) as (j & Hj & Hlast). exists (S j). split; [done|].
      intros [|k] Hk; [lia|]. apply Hlast. lia.
    + apply elem_of_cons in Hin as [->|]; [|done]. exists 0. split; [done|].
      intros [|k] Hk Hlook; [lia|]. apply Hrest.
      apply list_elem_of_lookup. eauto.
Qed.

(** X3.  Rendering depends on no serial: when a call returns lines and
    leaves the atoms in some state, the same call on the atoms in that
    state returns the same lines and changes no atom any more. *)
Theorem print_biomolecule_atoms_again (h h' : heap) (atomlist : list ref) text :
  print_biomolecule_atoms am h atomlist chainflag pdbfile ciffile = Ok (text, h') →
  ∃ h'',
    print_biomolecule_atoms am h' atomlist chainflag pdbfile ciffile = Ok (text, h'') ∧
    ∀ r, h'' r = h' r.
Proof.
  unfold print_biomolecule_atoms. destruct (pdbfile && ciffile); [done|].
  intros [= <- <-]. eexists. split.
  - do 2 f_equal. rewrite !loop_text. simpl.
    rewrite (rows_up_to_serial h); [done|].
    intros r. apply (loop_atoms_shape am chainflag pdbfile ciffile atomlist 0
                       (LoopState [] None h) r).
  - intros r.
    set (st' := loop am chainflag pdbfile ciffile 0 atomlist (LoopState [] None h)).
    destruct (decide (r ∈ atomlist)) as [Hin|Hout].
    + destruct (last_position atomlist r Hin) as (j & Hj & Hlast).
      rewrite (loop_atoms_shape am chainflag pdbfile ciffile atomlist 0
                 (LoopState [] None (atoms st')) r).
      rewrite (loop_serial_last am chainflag pdbfile ciffile atomlist 0 _ j r Hj Hlast).
      simpl atoms at 1.
      rewrite <-(loop_serial_last am chainflag pdbfile ciffile atomlist 0
                   (LoopState [] None h) j r Hj Hlast).
      apply with_serial_same.
    + by rewrite loop_atoms_notin.
Qed.

Lemma with_terminators_length (rows : list (string * string)) :
  length (with_terminators rows) = length rows + chain_changes (fst <$> rows).
Proof.
  induction rows as [|[c l] rows IH]; [done|].
  destruct rows as [|[c' l'] rows'].
  - done.
  - change (with_terminators ((c, l) :: (c', l') :: rows')) with
      (l :: (if decide (c' ≠ c) then ["TER" +:+ PyStr.nl] else [])
         ++ with_terminators ((c', l') :: rows')).
    change (chain_changes (fst <$> (c, l) :: (c', l') :: rows')) with
      ((if decide (c' ≠ c) then 1 else 0) + chain_changes (fst <$> (c', l') :: rows')).
    cbn [length]. rewrite length_app, IH. cbn [length]. case_decide; simpl; lia.
Qed.

Lemma rows_chains (h : heap) first atomlist :
  fst <$> rows am chainflag pdbfile ciffile h first atomlist
  = (λ r, chain_id (h r)) <$> atomlist.
Proof.
  revert first. induction atomlist as [|a rest IH]; intros first; [done|].
  simpl. by rewrite IH.
Qed.

(** X4.  The list returned holds one line per atom, one line per change
    of chain between neighbouring atoms, and the closing entry unless the
    dialect is CIF; for an empty atom list that is the closing entry
    alone, or nothing. *)
Theorem print_biomolecule_atoms_length (h : heap) (atomlist : list ref) text h' :
  print_biomolecule_atoms am h atomlist chainflag pdbfile ciffile = Ok (text, h') →
  length text =
    length atomlist + chain_changes ((λ r, chain_id (h r)) <$> atomlist)
    + (if ciffile then 0 else 1).
Proof.
  unfold print_biomolecule_atoms. destruct (pdbfile && ciffile); [done|].
  intros [= <- <-]. rewrite loop_text. simpl.
  assert (Hbody : length (with_terminators (rows am chainflag pdbfile ciffile h 0 atomlist))
                  = length atomlist + chain_changes ((λ r, chain_id (h r)) <$> atomlist)).
  { rewrite with_terminators_length, rows_chains. f_equal.
    rewrite <-(length_fmap fst), rows_chains. apply length_fmap. }
  destruct ciffile; simpl; rewrite ?length_app, Hbody; simpl; lia.
Qed.

End FormatterMore.

Lemma print_biomolecule_atoms_again_witness :
  ∃ text h' h'',
    Formatter.print_biomolecule_atoms sample_methods sample_heap [0; 1; 2] true false false
      = Ok (text, h') ∧
    Formatter.print_biomolecule_atoms sample_methods h' [0; 1; 2] true false false
      = Ok (text, h'') ∧
    ∀ r, h'' r = h' r.
Proof.
  eexists _, _.
  destruct (print_biomolecule_atoms_again sample_methods true false false
              sample_heap _ [0; 1; 2] _ eq_refl) as (h'' & Hagain & Hsame).
  exists h''. split; [reflexivity|]. split; [exact Hagain|exact Hsame].
Defined.

Lemma print_biomolecule_atoms_length_witness :
  ∃ text h',
    Formatter.print_biomolecule_atoms sample_methods sample_heap [0; 1; 2] true false false
      = Ok (text, h') ∧
    length text = 5.
Proof.
  eexists _, _. split; [reflexivity|].
  exact (print_biomolecule_atoms_length sample_methods true false false
           sample_heap [0; 1; 2] _ _ eq_refl).
Defined.

(** ** The legacy header and the CIF header *)

Section HeaderMore.
Import Header.

(** X5.  [get_old_header] is the text of the leading records of the
    recognised header types, each followed by a line break: the first
    record of any other type ends it, and neither that record nor any
    record after it, header or not, shows in the result. *)
Theorem get_old_header_leading_block (leading : list PdbRecord) other rest :
  Forall (λ r, record_class r ∈ header_types) leading →
  record_class other ∉ header_types →
  get_old_header (leading ++ other :: rest)
    = foldr (λ r text, record_str r +:+ PyStr.nl +:+ text) EmptyString leading ∧
  get_old_header leading
    = foldr (λ r text, record_str r +:+ PyStr.nl +:+ text) EmptyString leading.
Proof.
  intros Hleading Hother.
  induction Hleading as [|r leading Hr _ [IH1 IH2]]; simpl.
  - by rewrite bool_decide_eq_false_2.
  - rewrite bool_decide_eq_true_2 by done. by rewrite IH1, IH2.
Qed.

End HeaderMore.

Lemma get_old_header_leading_block_witness :
  Header.get_old_header (sample_records ++ sample_atom_record :: sample_records)
    = "HEADER    HYDROLASE" +:+ PyStr.nl +:+ "TITLE     LYSOZYME" +:+ PyStr.nl.
Proof.
  destruct (get_old_header_leading_block sample_records sample_atom_record sample_records)
    as [H _].
  - repeat constructor; by apply (bool_decide_unpack _).
  - by apply (bool_decide_unpack _).
  - rewrite H. reflexivity.
Defined.

Section HeaderCifFacts.
Import HeaderCif.
Variable cfg : Config.
Variable am : AtomMethods.

(** X6.  Asking [print_pqr_header_cif] for the original header changes
    nothing in what it returns: the call logs one warning and gives the
    header it gives without the request.  The call fails only on a pKa
    method without a pH (and then logs nothing); every header returned
    opens with the remark loop and closes with the declaration of the
    atom loop. *)
Theorem print_pqr_header_cif_old_header
    atomlist reslist charge force_field ph_calc_method ph ffout :
  let asked := print_pqr_header_cif cfg am atomlist reslist charge force_field
                 ph_calc_method ph ffout true in
  let plain := print_pqr_header_cif cfg am atomlist reslist charge force_field
                 ph_calc_method ph ffout false in
  asked.2 = plain.2 ∧ plain.1 = [] ∧
  match plain.2 with
  | Ok header =>
      asked.1 = ["Including original CIF header not implemented."] ∧
      PyStr.begins remark_loop header ∧
      Files.ends_with header atom_site_loop
  | Raise e => asked.1 = [] ∧ e = TypeError ∧ ph = None ∧ ph_calc_method ≠ None
  end.
Proof.
  intros asked plain. subst asked plain. unfold print_pqr_header_cif. cbv zeta.
  set (header0 := PyStr.join PyStr.nl ("#" :: _)).
  assert (Hopen : PyStr.begins remark_loop header0).
  { eexists. subst header0. unfold remark_loop, PyStr.join. reflexivity. }
  set (header1 := match ffout with Some _ => _ | None => header0 end).
  assert (Hopen1 : PyStr.begins remark_loop (header1 +:+ PyStr.nl)).
  { apply begins_append. subst header1. destruct ffout; [by apply begins_append|done]. }
  revert Hopen1. generalize (header1 +:+ PyStr.nl). clear. intros header2 Hopen.
  destruct ph_calc_method as [method|]; [destruct ph as [v|]|]; simpl;
    try done;
    (split; [done|]; split; [done|]; split; [done|]; split; [|by eexists]);
    repeat first [ case_bool_decide | apply begins_append | apply begins_foldl | done ].
Qed.

End HeaderCifFacts.

(** ** The order of the file search *)

Section LookupFacts.
Import Files Lookup.
Variable cfg : Config.
Variable w : World.

Lemma for_first_app {A B} (l1 l2 : list A) (body : A → option B) :
  for_first (l1 ++ l2) body =
  match for_first l1 body with
  | Some b => Some b
  | None => for_first l2 body
  end.
Proof.
  induction l1 as [|a l1 IH]; [done|]. simpl. by destruct (body a).
Qed.

Lemma for_first_bind {A B C} (l : list A) (g : A → list B) (body : B → option C) :
  for_first (l ≫= g) body = for_first l (λ a, for_first (g a) body).
Proof.
  induction l as [|a l IH]; [done|].
  rewrite bind_cons, for_first_app, IH. done.
Qed.

Lemma for_first_fmap {A B C} (l : list A) (f : A → B) (body : B → option C) :
  for_first (f <$> l) body = for_first l (λ a, body (f a)).
Proof.
  induction l as [|a l IH]; [done|].
  rewrite fmap_cons. cbn [for_first]. by destruct (body (f a)).
Qed.

Lemma for_first_ext {A B} (l : list A) (body1 body2 : A → option B) :
  (∀ a, body1 a = body2 a) → for_first l body1 = for_first l body2.
Proof. intros H. induction l as [|a l IH]; [done|]. simpl. by rewrite H, IH. Qed.

Lemma for_first_test (l : list string) p :
  for_first l (λ q, if is_file w q then Some q else None) = Some p ↔
  ∃ before after, l = before ++ p :: after ∧ is_file w p = true ∧
                  Forall (λ q, is_file w q = false) before.
Proof.
  induction l as [|q l IH]; simpl.
  - split; [done|]. intros (before & after & Heq & _). by destruct before.
  - destruct (is_file w q) eqn:Hq.
    + split.
      * intros [= <-]. by exists [], l.
      * intros ([|q' before] & after & Heq & Hp & Hbefore).
        -- by simplify_eq/=.
        -- simplify_eq/=. apply Forall_cons in Hbefore as [Hq' _]. congruence.
    + rewrite IH. split.
      * intros (before & after & -> & Hp & Hbefore).
        exists (q :: before), after. repeat split; [done|]. by constructor.
      * intros ([|q' before] & after & Heq & Hp & Hbefore).
        -- simplify_eq/=. congruence.
        -- simplify_eq/=. apply Forall_cons in Hbefore as [_ Hbefore].
           by exists before, after.
Qed.

Lemma nested_loops_candidates n t :
  for_first (test_dirs w) (λ test_dir,
    for_first (test_names n) (λ test_name,
      for_first (test_suffixes t) (λ test_suffix,
        let test_path := path_div w test_dir (test_name +:+ test_suffix) in
        if is_file w test_path then Some test_path else None)))
  = for_first (candidates w n t) (λ q, if is_file w q then Some q else None).
Proof.
  unfold candidates. rewrite for_first_bind. apply for_first_ext. intros d.
  rewrite for_first_bind. apply for_first_ext. intros tn.
  by rewrite for_first_fmap.
Qed.

(** X7.  For a name and a type that are given, [test_for_file] returns a
    path exactly when it is the first file among the paths tried, in the
    order directories, then name as given, upper-cased, lower-cased, then
    no suffix, upper-cased suffix, lower-cased suffix; it never returns
    the empty string then. *)
Theorem test_for_file_first_file (n t : string) :
  (∀ p, test_for_file cfg w (Some n) (Some t) = Ok (FoundPath p) ↔
        ∃ before after, candidates w n t = before ++ p :: after ∧
                        is_file w p = true ∧
                        Forall (λ q, is_file w q = false) before) ∧
  test_for_file cfg w (Some n) (Some t) ≠ Ok EmptyStr.
Proof.
  unfold test_for_file. cbn [mbind result_bind]. cbv zeta.
  pose proof (nested_loops_candidates n t) as Hnested. cbv zeta in Hnested.
  rewrite Hnested. split.
  - intros p. rewrite <-for_first_test.
    destruct (for_first (candidates w n t) _); split; intros H; by simplify_eq.
  - by destruct (for_first (candidates w n t) _).
Qed.

End LookupFacts.

Lemma test_for_file_first_file_witness :
  Files.test_for_file sample_cfg sample_world_dat (Some "amber") (Some "dat")
    = Ok (Files.FoundPath "/work/pdb2pqr/dat/AMBER.DAT").
Proof.
  destruct (test_for_file_first_file sample_cfg sample_world_dat "amber" "dat") as [H _].
  apply H.
  eexists (take 13 (Lookup.candidates sample_world_dat "amber" "dat")),
          (drop 14 (Lookup.candidates sample_world_dat "amber" "dat")).
  split; [reflexivity|]. split; [reflexivity|].
  apply (bool_decide_unpack _). vm_compute. exact I.
Defined.

(** ** The line readers and [get_molecule] *)

Section ReadersFacts.
Import Readers.
Variable from_qcd_line : string → Z → option Atom.

Lemma read_qcd_loop_atoms qcd_file : ∀ atoms s,
  read_qcd_loop from_qcd_line qcd_file atoms s
  = atoms ++ read_qcd_loop from_qcd_line qcd_file [] s.
Proof.
  induction qcd_file as [|line rest IH]; intros atoms s; simpl.
  - by rewrite app_nil_r.
  - destruct (from_qcd_line line s) as [atom|]; [|apply IH].
    rewrite (IH (atoms ++ [atom])), (IH [atom]). by rewrite <-app_assoc.
Qed.

Lemma read_qcd_loop_serial qcd_file : ∀ s k atom,
  read_qcd_loop from_qcd_line qcd_file [] s !! k = Some atom →
  ∃ i line, qcd_file !! i = Some line ∧ k ≤ i ∧
            from_qcd_line line (s + Z.of_nat k) = Some atom.
Proof.
  induction qcd_file as [|line rest IH]; intros s k atom Hk; [done|].
  simpl in Hk. destruct (from_qcd_line line s) as [a|] eqn:Hline.
  - rewrite read_qcd_loop_atoms in Hk. destruct k as [|k].
    + simplify_eq/=. exists 0, line. rewrite Z.add_0_r. repeat split; [lia|done].
    + simpl in Hk. destruct (IH _ _ _ Hk) as (i & line' & Hi & Hle & Hatom).
      exists (S i), line'. repeat split; [done|lia|].
      by replace (s + Z.of_nat (S k))%Z with (s + 1 + Z.of_nat k)%Z by lia.
  - destruct (IH _ _ _ Hk) as (i & line' & Hi & Hle & Hatom).
    exists (S i), line'. repeat split; [done|lia|done].
Qed.

Lemma read_qcd_loop_skip before line after : ∀ atoms s,
  (∀ n, from_qcd_line line n = None) →
  read_qcd_loop from_qcd_line (before ++ line :: after) atoms s
  = read_qcd_loop from_qcd_line (before ++ after) atoms s.
Proof.
  intros atoms s Hnone. revert atoms s.
  induction before as [|l before IH]; intros atoms s; simpl.
  - by rewrite Hnone.
  - destruct (from_qcd_line l s); apply IH.
Qed.

(** X8.  [read_qcd] numbers the atoms it returns, not the lines it
    reads: the atom in position [k] of the result was made from a line at
    position [k] or later, with serial [k + 1]; and a line that gives no
    atom whatever the serial can be taken out of the file without
    changing the result. *)
Theorem read_qcd_serials (qcd_file : list string) :
  (∀ k atom,
     read_qcd from_qcd_line qcd_file !! k = Some atom →
     ∃ i line, qcd_file !! i = Some line ∧ k ≤ i ∧
               from_qcd_line line (Z.of_nat k + 1) = Some atom) ∧
  (∀ before line after,
     qcd_file = before ++ line :: after →
     (∀ n, from_qcd_line line n = None) →
     read_qcd from_qcd_line qcd_file = read_qcd from_qcd_line (before ++ after)).
Proof.
  split.
  - intros k atom Hk. destruct (read_qcd_loop_serial _ _ _ _ Hk) as (i & line & ? & ? & Hatom).
    exists i, line. repeat split; [done..|].
    by replace (Z.of_nat k + 1)%Z with (1 + Z.of_nat k)%Z by lia.
  - intros before line after -> Hnone. by apply read_qcd_loop_skip.
Qed.

Variable w : Files.World.
Variable ps : Parsers.

(** X9.  For a path that is an existing file, [get_molecule] reads it as
    CIF exactly when the suffix, lower-cased, is [.cif]; it fails, with
    [RuntimeError], exactly when the reader returns no record and no
    error; errors alone never make it fail: it returns the records read
    (possibly none) and the CIF flag, after logging a warning and the
    errors, and logs nothing of its own when there is no error. *)
Theorem get_molecule_existing_file (input_path : string) :
  Files.is_file w input_path = true →
  let is_cif := String.eqb (PyStr.lower (suffix ps input_path)) ".cif" in
  let parsed := (if is_cif then read_cif ps else read_pdb ps) (Files.TextFile input_path) in
  let out := get_molecule w ps input_path in
  (parsed = ([], []) →
   out = ([FileEvent (Files.OpenFile input_path)],
          inl (RuntimeError ("Unable to find file " +:+ input_path +:+ "!")))) ∧
  (parsed ≠ ([], []) → out.2 = inr (parsed.1, is_cif)) ∧
  (parsed.1 ≠ [] → parsed.2 = [] →
   out = ([FileEvent (Files.OpenFile input_path)], inr (parsed.1, is_cif))) ∧
  (parsed.2 ≠ [] →
   ∃ msg, out = ([FileEvent (Files.OpenFile input_path); LogWarning msg; LogError parsed.2],
                 inr (parsed.1, is_cif))).
Proof.
  intros Hfile is_cif parsed out. subst out. unfold get_molecule.
  unfold Files.get_pdb_file, Files.get_pdb_file_in. rewrite Hfile.
  fold is_cif. cbn [fmap list_fmap].
  assert (Hparsed : (if is_cif then read_cif ps (Files.TextFile input_path)
                     else read_pdb ps (Files.TextFile input_path)) = parsed)
    by (subst parsed; by destruct is_cif).
  rewrite Hparsed. destruct parsed as [pdblist errlist]. simpl.
  destruct pdblist as [|r pdblist], errlist as [|e errlist]; simpl;
    repeat split; intros; try done; by eexists.
Qed.

End ReadersFacts.

Lemma read_qcd_serials_witness :
  Readers.read_qcd sample_from_qcd_line ["ATOM a"; "REMARK"; "ATOM b"]
  = Readers.read_qcd sample_from_qcd_line ["ATOM a"; "ATOM b"].
Proof.
  destruct (read_qcd_serials sample_from_qcd_line ["ATOM a"; "REMARK"; "ATOM b"])
    as [_ H].
  apply (H ["ATOM a"] "REMARK" ["ATOM b"]); reflexivity.
Defined.

Lemma get_molecule_existing_file_witness :
  ∃ msg,
    Readers.get_molecule sample_world_full sample_parsers "1abc.pdb"
    = ([Readers.FileEvent (Files.OpenFile "1abc.pdb"); Readers.LogWarning msg;
        Readers.LogError ["bad record"]],
       inr ([], false)).
Proof.
  destruct (get_molecule_existing_file sample_world_full sample_parsers "1abc.pdb" eq_refl)
    as (_ & _ & _ & H).
  apply H. discriminate.
Defined.

(** ** Writing the lines out *)

Section OutputFacts.
Import Output.

Lemma take_drop_chars n s : take_chars n s +:+ drop_chars n s = s.
Proof.
  revert s. induction n as [|n IH]; intros [|c s]; try done.
  simpl. by rewrite append_cons, IH.
Qed.

Lemma drop_chars_add n m s : drop_chars (n + m) s = drop_chars m (drop_chars n s).
Proof.
  revert s. induction n as [|n IH]; intros s; [done|].
  destruct s as [|c s]; [by destruct m|]. apply IH.
Qed.

Lemma length_append s t : String.length (s +:+ t) = String.length s + String.length t.
Proof. induction s as [|c s IH]; [done|]. rewrite append_cons. simpl. by rewrite IH. Qed.

Lemma spaced_pieces line :
  slice line 0 6 +:+ slice line 6 16 +:+ slice line 16 38 +:+ slice line 38 46 +:+
  slice_from line 46 = line.
Proof.
  unfold slice, slice_from. simpl Nat.sub. change (drop_chars 0 line) with line.
  pose proof (drop_chars_add 38 8 line) as H46.
  pose proof (drop_chars_add 16 22 line) as H38.
  pose proof (drop_chars_add 6 10 line) as H16.
  change (38 + 8) with 46 in H46. change (16 + 22) with 38 in H38.
  change (6 + 10) with 16 in H16.
  rewrite H46, take_drop_chars, H38, take_drop_chars, H16, take_drop_chars.
  apply take_drop_chars.
Qed.

Lemma pqr_loop_whitespace is_cif pqr_lines :
  pqr_loop true is_cif pqr_lines = spaced <$> filter (λ line, is_record line = true) pqr_lines.
Proof.
  induction pqr_lines as [|line rest IH]; [done|].
  simpl. rewrite IH, filter_cons. destruct (is_record line); by case_decide.
Qed.

(** X10.  With the whitespace option [print_pqr] writes the lines that
    begin with [ATOM] or [HETATM], in order, and no other line; CIF
    output adds the closing [#] line and changes nothing else.  A line
    is written as its five column ranges with one space between them:
    the ranges make up the line, whatever its length, so the line
    written is four characters longer. *)
Theorem print_pqr_whitespace (pqr_lines header_lines missing_lines : list string)
    (is_cif : bool) :
  written (print_pqr true pqr_lines header_lines missing_lines is_cif)
    = (spaced <$> filter (λ line, is_record line = true) pqr_lines)
      ++ (if is_cif then ["#" +:+ PyStr.nl] else []) ∧
  ∀ line,
    slice line 0 6 +:+ slice line 6 16 +:+ slice line 16 38 +:+ slice line 38 46 +:+
      slice_from line 46 = line ∧
    String.length (spaced line) = String.length line + 4.
Proof.
  split.
  - unfold print_pqr. simpl. by rewrite pqr_loop_whitespace.
  - intros line. split; [apply spaced_pieces|].
    rewrite <-(spaced_pieces line) at 2. unfold spaced.
    rewrite !length_append. simpl. lia.
Qed.

End OutputFacts.

Section RetokenizeFacts.
Import Output.

Lemma split_space c s : PyStr.is_space c = true → PyStr.split (String c s) = PyStr.split s.
Proof. intros Hc. simpl. by rewrite Hc. Qed.

Lemma split_token_then t rest :
  token t →
  (rest = EmptyString ∨ ∃ c r, rest = String c r ∧ PyStr.is_space c = true) →
  PyStr.split (t +:+ rest) = t :: PyStr.split rest.
Proof.
  intros [Hne Hns] Hrest. induction t as [|a t IH]; [done|].
  simpl in Hns. apply andb_true_iff in Hns as [Ha Hns].
  apply negb_true_iff in Ha.
  destruct t as [|b t].
  - rewrite append_cons, append_nil_l.
    destruct Hrest as [->|(c & r & -> & Hc)]; simpl; rewrite Ha; [done|].
    by rewrite Hc.
  - specialize (IH ltac:(done) Hns).
    rewrite append_cons.
    change (PyStr.split (String a (String b t +:+ rest))) with
      (if PyStr.is_space a then PyStr.split (String b t +:+ rest)
       else match String b t +:+ rest with
            | EmptyString => [String a EmptyString]
            | String c' _ =>
                if PyStr.is_space c' then String a EmptyString :: PyStr.split (String b t +:+ rest)
                else match PyStr.split (String b t +:+ rest) with
                     | t' :: ts => String a t' :: ts
                     | [] => [String a EmptyString]
                     end
            end).
    rewrite Ha, IH. rewrite append_cons.
    simpl in Hns. apply andb_true_iff in Hns as [Hb _].
    apply negb_true_iff in Hb. by rewrite Hb.
Qed.

Lemma token_cons a t :
  PyStr.is_space a = false →
  (t = EmptyString ∨ token t) → token (String a t).
Proof.
  intros Ha Ht. split; [done|]. simpl. rewrite Ha. simpl.
  destruct Ht as [->|[_ Ht]]; [done|done].
Qed.

Lemma split_cons a s :
  PyStr.split (String a s) =
  if PyStr.is_space a then PyStr.split s
  else match s with
       | EmptyString => [String a EmptyString]
       | String c' _ =>
           if PyStr.is_space c' then String a EmptyString :: PyStr.split s
           else match PyStr.split s with
                | t :: ts => String a t :: ts
                | [] => [String a EmptyString]
                end
       end.
Proof. reflexivity. Qed.

Lemma split_tokens s : Forall token (PyStr.split s).
Proof.
  induction s as [|a s IH]; [constructor|].
  rewrite split_cons. destruct (PyStr.is_space a) eqn:Ha; [done|].
  assert (Hone : token (String a EmptyString)) by (by apply token_cons; [|left]).
  destruct s as [|b s]; [apply Forall_cons_2; [exact Hone|apply Forall_nil_2]|].
  destruct (PyStr.is_space b) eqn:Hb; [by apply Forall_cons_2|].
  destruct (PyStr.split (String b s)) as [|t ts];
    [apply Forall_cons_2; [exact Hone|apply Forall_nil_2]|].
  apply Forall_cons in IH as [Ht Hts]. apply Forall_cons_2; [|done].
  apply token_cons; [done|by right].
Qed.

Lemma dot_token t : token t → token (dot t).
Proof. intros Ht. unfold dot. by case_bool_decide. Qed.

Lemma dot_not_underscore t : dot t ≠ "_".
Proof. unfold dot. by case_bool_decide. Qed.

Lemma split_joined ts :
  Forall token ts → PyStr.split (PyStr.join " " ts +:+ PyStr.nl) = ts.
Proof.
  induction 1 as [|t ts Ht Hts IH]; [done|].
  unfold PyStr.join in *. destruct ts as [|t' ts].
  - simpl String.concat. rewrite split_token_then; [done|done|].
    right. by exists "010"%char, EmptyString.
  - change (String.concat " " (t :: t' :: ts)) with
      (t +:+ " " +:+ String.concat " " (t' :: ts)).
    rewrite !append_assoc. rewrite split_token_then; [|done|].
    + f_equal. rewrite append_cons, append_nil_l.
      by rewrite split_space.
    + right. eexists " "%char, _. split; [|done]. by rewrite append_cons, append_nil_l.
Qed.

Lemma split_dotted line : PyStr.split (dotted line) = dot <$> PyStr.split line.
Proof.
  unfold dotted. apply split_joined.
  apply Forall_fmap. eapply Forall_impl; [apply split_tokens|].
  intros t Ht. by apply dot_token.
Qed.

Lemma cif_loops is_cif lines :
  pqr_loop false is_cif lines = pdb_loop is_cif lines.
Proof. induction lines as [|line rest IH]; [done|]. simpl. by rewrite IH. Qed.

Lemma pdb_loop_plain lines : pdb_loop false lines = lines.
Proof.
  induction lines as [|line rest IH]; [done|].
  simpl. rewrite IH. by rewrite orb_true_r.
Qed.

Lemma pdb_loop_cif lines :
  pdb_loop true lines =
  filter (λ line, String.eqb (slice line 0 3) "TER" = false) (dotted <$> lines).
Proof.
  induction lines as [|line rest IH]; [done|].
  simpl pdb_loop. rewrite IH, fmap_cons, filter_cons. rewrite orb_false_r.
  destruct (String.eqb (slice (dotted line) 0 3) "TER"); by case_decide.
Qed.

(** X11.  Without the whitespace option and for PDB or PQR output,
    [print_pqr] writes the lines as they are, [TER] lines included.  For
    CIF output every line is written retokenized, its tokens joined by
    single spaces with each token [_] turned into [.], so that no token
    [_] is left; lines whose retokenized text begins with [TER] are left
    out, and a closing [#] line follows the last line. *)
Theorem print_pqr_retokenized (pqr_lines header_lines missing_lines : list string) :
  written (print_pqr false pqr_lines header_lines missing_lines false) = pqr_lines ∧
  written (print_pqr false pqr_lines header_lines missing_lines true)
    = filter (λ line, String.eqb (slice line 0 3) "TER" = false) (dotted <$> pqr_lines)
      ++ ["#" +:+ PyStr.nl] ∧
  ∀ line,
    PyStr.split (dotted line) = dot <$> PyStr.split line ∧
    "_" ∉ PyStr.split (dotted line).
Proof.
  unfold print_pqr. simpl. rewrite !cif_loops, pdb_loop_plain, pdb_loop_cif, app_nil_r.
  split; [done|]. split; [done|]. intros line. rewrite split_dotted. split; [done|].
  intros (t & Ht & _)%list_elem_of_fmap. symmetry in Ht. by apply dot_not_underscore in Ht.
Qed.

(** X12.  [print_pdb] writes what [print_pqr] writes without the
    whitespace option, except that it does not close CIF output with the
    [#] line; both log the same warnings about header and missing lines,
    and neither writes any of those lines. *)
Theorem print_pdb_print_pqr (lines header_lines missing_lines : list string)
    (is_cif : bool) :
  written (print_pqr false lines header_lines missing_lines is_cif)
    = written (print_pdb lines header_lines missing_lines is_cif)
      ++ (if is_cif then ["#" +:+ PyStr.nl] else []) ∧
  logged (print_pqr false lines header_lines missing_lines is_cif)
    = logged (print_pdb lines header_lines missing_lines is_cif) ∧
  written (print_pdb lines header_lines missing_lines is_cif)
    = written (print_pdb lines [] [] is_cif).
Proof. unfold print_pqr, print_pdb. simpl. by rewrite cif_loops. Qed.

End RetokenizeFacts.

(** Three rendered lines written out for CIF. *)
Example print_pqr_cif_sample :
  Output.written
    (Output.print_pqr false
       [ "ATOM 1 N _ MET" +:+ PyStr.nl; "TER" +:+ PyStr.nl; "ATOM   2  CA _   MET" +:+ PyStr.nl ]
       [] [] true)
  = [ "ATOM 1 N . MET" +:+ PyStr.nl; "ATOM 2 CA . MET" +:+ PyStr.nl; "#" +:+ PyStr.nl ].
Proof. vm_compute. reflexivity. Qed.

(** ** More on the columnar remapper *)

Section RemapMore.
Import Remap.

Lemma generate_columns_eq (pdb_lines : list string) :
  generate_atom_site_columns pdb_lines
  = Ok (column_at (accepted_lines pdb_lines) <$> positions).
Proof.
  destruct (fill_spec pdb_lines no_columns) as (c & Hfill & Hc).
  unfold generate_atom_site_columns. rewrite Hfill. simpl. by rewrite Hc.
Qed.

Lemma accepted_lines_app (lines1 lines2 : list string) :
  accepted_lines (lines1 ++ lines2) = accepted_lines lines1 ++ accepted_lines lines2.
Proof. unfold accepted_lines. by rewrite fmap_app, filter_app. Qed.

(** X13.  The columns of two lists of lines put end to end are the
    columns of the first list, each followed by the column of the same
    name of the second list. *)
Theorem generate_atom_site_columns_app (lines1 lines2 : list string) :
  ∃ cols1 cols2,
    generate_atom_site_columns lines1 = Ok cols1 ∧
    generate_atom_site_columns lines2 = Ok cols2 ∧
    generate_atom_site_columns (lines1 ++ lines2) = Ok (zip_with (++) cols1 cols2).
Proof.
  eexists _, _. rewrite !generate_columns_eq. split; [done|]. split; [done|].
  rewrite accepted_lines_app. unfold column_at. simpl. by rewrite !fmap_app.
Qed.

(** X14.  The entry for [label_atom_id] is the entry for [auth_atom_id]:
    both hold token 19 of the accepted lines, and token 3, where the
    lines carry an atom label of their own, goes into no column. *)
Theorem generate_atom_site_columns_atom_id (pdb_lines : list string) :
  ∃ cols,
    generate_atom_site_columns pdb_lines = Ok cols ∧
    cols !! 3 = Some (column_at (accepted_lines pdb_lines) 19) ∧
    cols !! 19 = Some (column_at (accepted_lines pdb_lines) 19) ∧
    3 ∉ positions.
Proof.
  eexists. rewrite generate_columns_eq. split; [done|]. split; [done|]. split; [done|].
  apply (bool_decide_unpack _). vm_compute. exact I.
Qed.

End RemapMore.

(** ** More on the grid reader *)

Section ReaderMore.
Import Grid GridLines.
Variable float_of : string → result PyNum.float.

Lemma read_line_passed_over d line :
  passed_over line → read_line float_of d line = Ok d.
Proof.
  intros (w0 & rest & Hwords & [Hin|(-> & w1 & rest' & -> & Hw1)]);
    unfold read_line; rewrite Hwords; cbn [index lookup list_lookup mbind result_bind].
  - by rewrite bool_decide_eq_true_2.
  - rewrite bool_decide_eq_false_2 by (by apply (bool_decide_unpack _)).
    change (String.eqb "object" "object") with true. cbv iota.
    by rewrite (proj2 (String.eqb_neq w1 "1")).
Qed.

(** X15.  Comment, [attribute] and [component] lines, and [object] lines
    other than [object 1], carry nothing: taking such a line out of the
    file changes neither the grid read nor the exception raised. *)
Theorem read_dx_passed_over (before after : list string) (line : string) :
  passed_over line →
  read_dx float_of (before ++ line :: after) = read_dx float_of (before ++ after).
Proof.
  intros Hline. unfold read_dx. rewrite !read_lines_app.
  destruct (read_lines float_of before empty_dict) as [d|e]; [|done].
  simpl. by rewrite read_line_passed_over.
Qed.

Lemma append_values_app words1 words2 : ∀ vals,
  append_values float_of (words1 ++ words2) vals
  = append_values float_of words1 vals ≫= append_values float_of words2.
Proof.
  induction words1 as [|word words1 IH]; intros vals; [done|].
  simpl. destruct (float_of word); [apply IH|done].
Qed.

Lemma read_scalar_line d line :
  scalar_line line →
  read_line float_of d line =
  vals ← append_values float_of (words_of line) (values d);
  Ok (DxDict (grid_spacing d) vals (number_of_grid_points d) (lower_left_corner d)).
Proof.
  intros (w & ws & Hwords & Hkey). unfold read_line. rewrite Hwords.
  unfold keywords in Hkey. rewrite !not_elem_of_cons in Hkey.
  destruct Hkey as (H1 & H2 & H3 & H4 & H5 & H6 & _).
  cbn [index lookup list_lookup mbind result_bind].
  rewrite bool_decide_eq_false_2 by (rewrite !elem_of_cons, elem_of_nil; tauto).
  by rewrite !(proj2 (String.eqb_neq _ _)) by done.
Qed.

(** X16.  Over lines of scalars the line breaks carry nothing: the
    values read are the values held before followed by the numbers of
    all tokens of the lines in file order, and the first token [float]
    rejects, if any, gives the exception of the whole. *)
Theorem read_dx_scalar_lines (lines : list string) (d : dx_dict) :
  Forall scalar_line lines →
  read_lines float_of lines d =
  vals ← append_values float_of (lines ≫= words_of) (values d);
  Ok (DxDict (grid_spacing d) vals (number_of_grid_points d) (lower_left_corner d)).
Proof.
  intros Hall. revert d. induction Hall as [|line lines Hline _ IH]; intros d.
  - simpl. by destruct d.
  - simpl read_lines. rewrite bind_cons, append_values_app, (read_scalar_line d line Hline).
    destruct (append_values float_of (words_of line) (values d)) as [vals|e]; [|done].
    simpl. by rewrite IH.
Qed.

(** X17.  An [object 1] line must have eight tokens, an [origin] or a
    [delta] line four: on a shorter line the call raises. *)
Theorem read_dx_short_line (d : dx_dict) (line key : string) (rest : list string) :
  (words_of line = "object" :: "1" :: rest ∧ length rest < 6) ∨
  (words_of line = key :: rest ∧ (key = "origin" ∨ key = "delta") ∧ length rest < 3) →
  is_ok (read_line float_of d line) = false.
Proof.
  intros [[Hwords Hshort]|(Hwords & Hkey & Hshort)]; unfold read_line; rewrite Hwords;
    cbn [index lookup list_lookup mbind result_bind].
  - rewrite bool_decide_eq_false_2 by (by apply (bool_decide_unpack _)).
    change (String.eqb "object" "object") with true. cbv iota.
    cbn [index lookup list_lookup mbind result_bind].
    change (String.eqb "1" "1") with true. cbv iota.
    do 6 (destruct rest as [|? rest];
          [solve [repeat (cbn [index lookup list_lookup mbind result_bind is_ok];
                          try done;
                          match goal with
                          | |- context [PyNum.int ?x] => destruct (PyNum.int x)
                          end)]|]).
    simpl in Hshort. lia.
  - assert (Hfloats : is_ok (three_floats float_of (key :: rest)) = false).
    { unfold three_floats.
      do 3 (destruct rest as [|? rest];
            [solve [repeat (cbn [index lookup list_lookup mbind result_bind is_ok];
                            try done;
                            match goal with
                            | |- context [float_of ?x] => destruct (float_of x)
                            end)]|]).
      simpl in Hshort. lia. }
    destruct (three_floats float_of (key :: rest)); [done|].
    destruct Hkey as [-> | ->].
    + rewrite bool_decide_eq_false_2 by (by apply (bool_decide_unpack _)). done.
    + rewrite bool_decide_eq_false_2 by (by apply (bool_decide_unpack _)). done.
Qed.

End ReaderMore.

Lemma read_dx_passed_over_witness :
  Grid.read_dx sample_float_of
    (["object 1 class gridpositions counts 2 2 2" +:+ PyStr.nl]
     ++ ("object 2 class gridconnections counts 2 2 2" +:+ PyStr.nl)
     :: ["origin 0 0 0" +:+ PyStr.nl])
  = Grid.read_dx sample_float_of
      (["object 1 class gridpositions counts 2 2 2" +:+ PyStr.nl]
       ++ ["origin 0 0 0" +:+ PyStr.nl]).
Proof.
  apply read_dx_passed_over.
  exists "object", ["2"; "class"; "gridconnections"; "counts"; "2"; "2"; "2"].
  split; [reflexivity|]. right. split; [reflexivity|].
  by exists "2", ["class"; "gridconnections"; "counts"; "2"; "2"; "2"].
Defined.

Lemma read_dx_scalar_lines_witness :
  Grid.read_lines sample_float_of ["1 2 3" +:+ PyStr.nl; "4 5" +:+ PyStr.nl] Grid.empty_dict
  = Grid.read_lines sample_float_of ["1 2" +:+ PyStr.nl; "3 4 5" +:+ PyStr.nl] Grid.empty_dict.
Proof.
  rewrite !read_dx_scalar_lines; [reflexivity|..];
    repeat apply Forall_cons_2; try apply Forall_nil_2;
    (eexists _, _; split; [reflexivity|by apply (bool_decide_unpack _)]).
Defined.

Lemma read_dx_short_line_witness :
  is_ok (Grid.read_line sample_float_of Grid.empty_dict
           ("object 1 class gridpositions counts 2 2" +:+ PyStr.nl)) = false.
Proof.
  apply (read_dx_short_line sample_float_of Grid.empty_dict _ "object"
           ["class"; "gridpositions"; "counts"; "2"; "2"]).
  left. split; [reflexivity|simpl; lia].
Defined.

(** ** When the cube writer succeeds *)

Section WriterMore.
Import Grid GridLines.

Ltac head_steps :=
  cbn [returned written mbind cube_io_bind write lift subscript index lookup list_lookup
       for_each write_axis point_count lower_left_corner number_of_grid_points
       grid_spacing mret cube_io_ret result_bind].

Lemma write_head_writable n0 n1 n2 o0 o1 o2 om a0 a1 a2 am b0 b1 b2 bm c0 c1 c2 cm sm vals
    (atom_list : list Atom) comment :
  returned (write_head
    (DxDict ((a0 :: a1 :: a2 :: am) :: (b0 :: b1 :: b2 :: bm) :: (c0 :: c1 :: c2 :: cm) :: sm)
            vals (Some (n0, n1, n2)) (Some (o0 :: o1 :: o2 :: om)))
    atom_list comment) = Ok tt ∧
  length (written (write_head
    (DxDict ((a0 :: a1 :: a2 :: am) :: (b0 :: b1 :: b2 :: bm) :: (c0 :: c1 :: c2 :: cm) :: sm)
            vals (Some (n0, n1, n2)) (Some (o0 :: o1 :: o2 :: om)))
    atom_list comment)) = 6 + length atom_list.
Proof.
  unfold write_head. rewrite for_each_writes. head_steps.
  split; [done|]. rewrite !length_app, length_fmap. cbn [length]. lia.
Qed.

Lemma write_head_needs d (atom_list : list Atom) comment :
  returned (write_head d atom_list comment) = Ok tt → writable d.
Proof.
  destruct d as [spacings vals dims corner]. unfold write_head, writable.
  cbn [lower_left_corner number_of_grid_points grid_spacing].
  destruct corner as [[|o0 [|o1 [|o2 om]]]|]; try (head_steps; discriminate).
  destruct dims as [[[n0 n1] n2]|]; [|head_steps; discriminate].
  destruct spacings as [|[|a0 [|a1 [|a2 am]]] spacings]; try (head_steps; discriminate).
  destruct spacings as [|[|b0 [|b1 [|b2 bm]]] spacings]; try (head_steps; discriminate).
  destruct spacings as [|[|c0 [|c1 [|c2 cm]]] spacings]; try (head_steps; discriminate).
  intros _. split; [by eexists _, _, _, _|]. split; [done|].
  intros [|[|[|i]]] Hi; [by eexists _, _, _, _..|lia].
Qed.

(** X18.  [write_cube] raises nothing exactly when the grid has an
    origin of three coordinates, the numbers of grid points, and three
    spacing vectors of three numbers; it then makes six writes, one per
    atom and one per chunk of values.  The values play no part in this:
    their number is not compared with the numbers of grid points. *)
Theorem write_cube_succeeds (d : dx_dict) (atom_list : list Atom) (comment : string) :
  (returned (write_cube d atom_list comment) = Ok tt ↔ writable d) ∧
  (writable d →
   length (written (write_cube d atom_list comment))
     = 6 + length atom_list + length (chunks 6 (values d))).
Proof.
  assert (Hcube : write_cube d atom_list comment =
            match returned (write_head d atom_list comment) with
            | Ok _ => CubeIO (written (write_head d atom_list comment)
                              ++ value_lines (chunks 6 (values d))) (Ok tt)
            | Raise e => CubeIO (written (write_head d atom_list comment)) (Raise e)
            end).
  { unfold write_cube. rewrite write_values_spec.
    unfold mbind, cube_io_bind. by destruct (returned _). }
  assert (Hlines : ∀ cs, length (value_lines cs) = length cs).
  { induction cs as [|c [|c' cs'] IH]; [done..|].
    change (value_lines (c :: c' :: cs')) with
      ((PyStr.join " " (e13 <$> c) +:+ PyStr.nl) :: value_lines (c' :: cs')).
    simpl length in *. by rewrite IH. }
  assert (Hready : writable d →
            returned (write_head d atom_list comment) = Ok tt ∧
            length (written (write_head d atom_list comment)) = 6 + length atom_list).
  { intros ((o0 & o1 & o2 & om & Ho) & Hdims & Hsp).
    destruct d as [spacings vals dims corner].
    cbn [lower_left_corner number_of_grid_points grid_spacing] in *. subst corner.
    destruct dims as [[[n0 n1] n2]|]; [|done].
    destruct (Hsp 0 ltac:(lia)) as (a0 & a1 & a2 & am & Ha).
    destruct (Hsp 1 ltac:(lia)) as (b0 & b1 & b2 & bm & Hb).
    destruct (Hsp 2 ltac:(lia)) as (c0 & c1 & c2 & cm & Hc).
    destruct spacings as [|s0 [|s1 [|s2 sm]]]; try done.
    cbn [lookup list_lookup] in Ha, Hb, Hc. simplify_eq.
    apply write_head_writable. }
  rewrite Hcube. split; [split|].
  - intros H. apply (write_head_needs d atom_list comment).
    destruct (returned (write_head d atom_list comment)) as [[]|]; [done|].
    cbn [returned] in H. discriminate.
  - intros [-> _]%Hready. done.
  - intros [-> Hlen]%Hready. cbn [written]. by rewrite length_app, Hlen, Hlines.
Qed.

End WriterMore.

Lemma write_cube_succeeds_witness :
  length (Grid.written (Grid.write_cube sample_grid [sample_heap 0] "CPMD CUBE FILE.")) = 9.
Proof.
  destruct (write_cube_succeeds sample_grid [sample_heap 0] "CPMD CUBE FILE.") as [_ H].
  rewrite H; [reflexivity|].
  split; [by eexists _, _, _, _|]. split; [done|].
  intros [|[|[|i]]] Hi; [by eexists _, _, _, _..|lia].
Defined.

(** A grid with 2 x 2 x 2 points and no value at all is written without
    complaint. *)
Example write_cube_no_values :
  Grid.returned
    (Grid.write_cube
       (Grid.DxDict (Grid.grid_spacing sample_grid) []
                    (Grid.number_of_grid_points sample_grid)
                    (Grid.lower_left_corner sample_grid))
       [] "CPMD CUBE FILE.") = Ok tt.
Proof. reflexivity. Qed.

(** The grid of an empty file: two lines are written, then the missing
    origin raises. *)
Example write_cube_empty_grid :
  Grid.write_cube Grid.empty_dict [] "CPMD CUBE FILE."
  = Grid.CubeIO [ "CPMD CUBE FILE." +:+ PyStr.nl;
                  "OUTER LOOP: X, MIDDLE LOOP: Y, INNER LOOP: Z" +:+ PyStr.nl ]
                (Raise TypeError).
Proof. reflexivity. Qed.

(** ** Rendered lines on their way out *)

Section PipelineFacts.
Import Formatter Remap Output.
Variable am : AtomMethods.
Variables chainflag pdbfile ciffile : bool.

Lemma accepted_lines_cons_skip line rest :
  accepted (PyStr.split line) = false →
  accepted_lines (line :: rest) = accepted_lines rest.
Proof. intros H. by rewrite accepted_lines_cons, H. Qed.

Lemma accepted_lines_with_terminators (rs : list (string * string)) :
  accepted_lines (with_terminators rs) = accepted_lines (snd <$> rs).
Proof.
  induction rs as [|[c l] rs IH]; [done|].
  change (with_terminators ((c, l) :: rs)) with
    (l :: match rs with
          | [] => []
          | (c', _) :: _ => if decide (c' ≠ c) then ["TER" +:+ PyStr.nl] else []
          end ++ with_terminators rs).
  rewrite fmap_cons. cbn [snd].
  rewrite !accepted_lines_cons. rewrite <-IH.
  assert (Hrest : accepted_lines
            (match rs with
             | [] => []
             | (c', _) :: _ => if decide (c' ≠ c) then ["TER" +:+ PyStr.nl] else []
             end ++ with_terminators rs) = accepted_lines (with_terminators rs)).
  { destruct rs as [|[c' l'] rs']; [done|]. case_decide; [|done].
    rewrite <-app_comm_cons. by rewrite accepted_lines_cons_skip. }
  by rewrite Hrest.
Qed.

(** X19.  The terminator lines and the closing entry that
    [print_biomolecule_atoms] puts among the atom lines give no row to
    [generate_atom_site_columns]: the columns of the list it returns are
    the columns of the atom lines alone. *)
Theorem columns_of_rendered_atoms (h h' : heap) (atomlist : list ref) text :
  print_biomolecule_atoms am h atomlist chainflag pdbfile ciffile = Ok (text, h') →
  generate_atom_site_columns text
  = generate_atom_site_columns (snd <$> rows am chainflag pdbfile ciffile h 0 atomlist).
Proof.
  unfold print_biomolecule_atoms. destruct (pdbfile && ciffile); [done|].
  intros [= <- _]. rewrite loop_text. cbn [text currentchain_id atoms lead app].
  rewrite !generate_columns_eq.
  apply (f_equal (λ lines, Ok (column_at lines <$> positions))).
  destruct ciffile; cbn [negb].
  - apply accepted_lines_with_terminators.
  - rewrite accepted_lines_app, accepted_lines_with_terminators.
    rewrite (accepted_lines_cons_skip _ []) by done. apply app_nil_r.
Qed.

Lemma pdb_loop_app is_cif lines1 lines2 :
  pdb_loop is_cif (lines1 ++ lines2) = pdb_loop is_cif lines1 ++ pdb_loop is_cif lines2.
Proof.
  induction lines1 as [|line lines1 IH]; [done|].
  simpl. by rewrite IH, <-app_assoc.
Qed.

Lemma pdb_loop_with_terminators (rs : list (string * string)) :
  Forall (λ row, String.eqb (slice (dotted row.2) 0 3) "TER" = false) rs →
  pdb_loop true (with_terminators rs) = (λ row, dotted row.2) <$> rs.
Proof.
  induction 1 as [|[c l] rs Hrow _ IH]; [done|].
  change (with_terminators ((c, l) :: rs)) with
    ([l] ++ match rs with
            | [] => []
            | (c', _) :: _ => if decide (c' ≠ c) then ["TER" +:+ PyStr.nl] else []
            end ++ with_terminators rs).
  rewrite !pdb_loop_app, IH, fmap_cons.
  assert (Hline : pdb_loop true [l] = [dotted l]).
  { cbn [pdb_loop]. simpl in Hrow. rewrite Hrow. done. }
  assert (Hter : pdb_loop true
            (match rs with
             | [] => []
             | (c', _) :: _ => if decide (c' ≠ c) then ["TER" +:+ PyStr.nl] else []
             end) = []).
  { destruct rs as [|[c' l'] rs']; [done|]. by case_decide. }
  by rewrite Hline, Hter.
Qed.

(** X20.  Written for CIF, the list returned by [print_biomolecule_atoms]
    for PDB or PQR loses every terminator line and the closing entry:
    when no atom line begins with [TER] once retokenized, [print_pqr]
    writes the retokenized atom lines, in order, and the closing [#]
    line. *)
Theorem print_pqr_of_rendered_atoms (h h' : heap) (atomlist : list ref) text
    (header_lines missing_lines : list string) :
  print_biomolecule_atoms am h atomlist chainflag pdbfile false = Ok (text, h') →
  Forall (λ row, String.eqb (slice (dotted row.2) 0 3) "TER" = false)
         (rows am chainflag pdbfile false h 0 atomlist) →
  written (print_pqr false text header_lines missing_lines true)
  = ((λ row, dotted row.2) <$> rows am chainflag pdbfile false h 0 atomlist)
    ++ ["#" +:+ PyStr.nl].
Proof.
  unfold print_biomolecule_atoms. rewrite andb_false_r.
  intros [= <- _] Hrows. rewrite loop_text. cbn [text currentchain_id atoms lead app negb].
  unfold print_pqr. cbn [written]. f_equal.
  rewrite cif_loops, pdb_loop_app, pdb_loop_with_terminators by done.
  apply app_nil_r.
Qed.

End PipelineFacts.

Lemma columns_of_rendered_atoms_witness :
  ∃ text h',
    Formatter.print_biomolecule_atoms sample_methods sample_heap [0; 1; 2] true false false
      = Ok (text, h') ∧
    Remap.generate_atom_site_columns text
    = Remap.generate_atom_site_columns
        ["ATOM 1 N A" +:+ PyStr.nl; "ATOM 2 CA A" +:+ PyStr.nl; "ATOM 3 C B" +:+ PyStr.nl].
Proof.
  eexists _, _. split; [reflexivity|].
  exact (columns_of_rendered_atoms sample_methods true false false
           sample_heap _ [0; 1; 2] _ eq_refl).
Defined.

Lemma print_pqr_of_rendered_atoms_witness :
  ∃ text h',
    Formatter.print_biomolecule_atoms sample_methods sample_heap [0; 1; 2] true false false
      = Ok (text, h') ∧
    Output.written (Output.print_pqr false text [] [] true)
    = [ "ATOM 1 N A" +:+ PyStr.nl; "ATOM 2 CA A" +:+ PyStr.nl; "ATOM 3 C B" +:+ PyStr.nl;
        "#" +:+ PyStr.nl ].
Proof.
  eexists _, _. split; [reflexivity|].
  apply (print_pqr_of_rendered_atoms sample_methods true false
           sample_heap _ [0; 1; 2] _ [] [] eq_refl).
  repeat apply Forall_cons_2; [..|apply Forall_nil_2]; reflexivity.
Defined.

(** ** Which lines CIF output drops *)

Section TerFacts.
Import Output.

Lemma space_not_letter c :
  PyStr.is_space c = true → c ≠ "T"%char ∧ c ≠ "E"%char ∧ c ≠ "R"%char.
Proof. intros Hc. repeat split; intros ->; discriminate. Qed.

Lemma prefix_cons a p b s :
  String.prefix (String a p) (String b s)
  = if ascii_dec a b then String.prefix p s else false.
Proof. reflexivity. Qed.

Lemma prefix_ter a b c s :
  String.prefix "TER" (String a (String b (String c s))) = true
  ↔ a = "T"%char ∧ b = "E"%char ∧ c = "R"%char.
Proof.
  rewrite !prefix_cons.
  destruct (ascii_dec "T" a) as [<-|Ha]; [|split; [done|intros (? & ? & ?); congruence]].
  destruct (ascii_dec "E" b) as [<-|Hb]; [|split; [done|intros (? & ? & ?); congruence]].
  destruct (ascii_dec "R" c) as [<-|Hc]; [|split; [done|intros (? & ? & ?); congruence]].
  by destruct s.
Qed.

Lemma prefix_ter_short u :
  String.length u < 3 → String.prefix "TER" u = false.
Proof.
  destruct u as [|a [|b [|c u]]]; [done|..]; rewrite ?prefix_cons; intros Hlen.
  - destruct (ascii_dec "T" a); done.
  - destruct (ascii_dec "T" a); [|done]. by destruct (ascii_dec "E" b).
  - simpl in Hlen. lia.
Qed.

Lemma begins_ter_token u c r :
  token u → PyStr.is_space c = true →
  String.eqb (slice (u +:+ String c r) 0 3) "TER" = PyStr.startswith u "TER".
Proof.
  intros [Hne _] (HT & HE & HR)%space_not_letter.
  unfold slice, PyStr.startswith. cbn [Nat.sub drop_chars].
  destruct u as [|a [|b [|c' u]]]; [done|..].
  - rewrite append_cons, append_nil_l. cbn [take_chars].
    rewrite prefix_ter_short by (simpl; lia).
    apply String.eqb_neq. destruct r; intros [= _ ? _]; congruence.
  - rewrite !append_cons, append_nil_l. cbn [take_chars].
    rewrite prefix_ter_short by (simpl; lia).
    apply String.eqb_neq. intros [= _ _ ?]. congruence.
  - rewrite !append_cons. cbn [take_chars].
    destruct (String.eqb_spec (String a (String b (String c' EmptyString))) "TER") as [Heq|Hneq].
    + symmetry. apply prefix_ter. by simplify_eq.
    + symmetry. apply not_true_is_false. intros (-> & -> & ->)%prefix_ter. done.
Qed.

Lemma startswith_dot t : PyStr.startswith (dot t) "TER" = PyStr.startswith t "TER".
Proof. unfold dot. case_bool_decide as Ht; [done|]. by subst t. Qed.

(** X21.  For CIF output a line is left out exactly when its first
    token begins with [TER], wherever the token stands in the line and
    whatever follows it; a line without tokens is written, as a bare
    line break. *)
Theorem cif_dropped_lines (line : string) :
  (String.eqb (slice (dotted line) 0 3) "TER" = true ↔
   ∃ t ts, PyStr.split line = t :: ts ∧ PyStr.startswith t "TER" = true) ∧
  (PyStr.split line = [] → pdb_loop true [line] = [PyStr.nl]).
Proof.
  split; [|intros Hsplit; cbn [pdb_loop]; unfold dotted; by rewrite Hsplit].
  unfold dotted, PyStr.join.
  pose proof (split_tokens line) as Htokens.
  destruct (PyStr.split line) as [|t ts].
  - split; [done|]. by intros (? & ? & ? & _).
  - apply Forall_cons in Htokens as [Ht _].
    assert (Hhead : ∃ c r, PyStr.is_space c = true ∧
              String.concat " " (dot <$> (t :: ts)) +:+ PyStr.nl = dot t +:+ String c r).
    { rewrite fmap_cons. destruct ts as [|t' ts].
      - by exists "010"%char, EmptyString.
      - change (String.concat " " (dot t :: (dot <$> t' :: ts))) with
          (dot t +:+ " " +:+ String.concat " " (dot <$> t' :: ts)).
        eexists " "%char, _. split; [done|]. by rewrite !append_assoc. }
    destruct Hhead as (c & r & Hc & ->).
    rewrite begins_ter_token, startswith_dot; [|by apply dot_token|done].
    split; [by exists t, ts|]. by intros (? & ? & [= <- <-] & ?).
Qed.

End TerFacts.

Lemma cif_dropped_lines_witness :
  String.eqb (Output.slice (Output.dotted ("   TERMINAL  _ x" +:+ PyStr.nl)) 0 3) "TER" = true.
Proof.
  destruct (cif_dropped_lines ("   TERMINAL  _ x" +:+ PyStr.nl)) as [[_ H] _].
  apply H. by exists "TERMINAL", ["_"; "x"].
Defined.
